(** * Tic-tac-toe front end: the session synchronisation logic of [App.js]

    A shallow embedding of the [App] component of
    [tic_tac_frontend/src/App.js]: its state hooks, the three asynchronous
    handlers ([fetchGameState], [startNewGame], [handleCellClick]), the
    polling effect and the parts of the presentation components that gate
    user input.

    Conventions.
    - Values held in React state and read out of JSON bodies are untyped
      JavaScript values ([JS.Value]).
    - An [async] handler is split at its suspension point: [*_begin] is the
      synchronous prefix that runs up to the first [await] and says which
      request is dispatched, [*_resume] is the continuation applied to the
      state found when the request settles.  The two awaits of a handler
      ([await fetch(..)], [await res.json()]) are merged into one: the handler
      calls no setter and reads no state between them.
    - The setters of one continuation are committed together (one render).
    - No error boundary is set up: a render that throws unmounts the whole
      tree ([App_render]), after which no button is left to click. *)

From Stdlib Require Import List String Ascii ZArith NArith Bool Lia.
From Stdlib Require Import DecimalString DecimalN.
Import ListNotations.
Open Scope string_scope.

Set Warnings "-register-all".

(** ** JavaScript values *)

Module JS.

(** JSON values plus [undefined].  Numbers are the integer-valued ones (move
    counts, timer handles). *)
Inductive Value : Type :=
| Undefined
| Null
| Bool (b : bool)
| Num (n : Z)
| Str (s : string)
| Arr (items : list Value)
| Obj (fields : list (string * Value)).

(** ToBoolean. *)
Definition truthy (v : Value) : bool :=
  match v with
  | Undefined | Null => false
  | Bool b => b
  | Num n => negb (n =? 0)%Z
  | Str s => negb (s =? "")
  | Arr _ | Obj _ => true
  end.

(** [a || b]. *)
Definition or_else (a b : Value) : Value := if truthy a then a else b.

(** [v === 'lit'] for a string literal. *)
Definition is_str (v : Value) (lit : string) : bool :=
  match v with
  | Str s => s =? lit
  | _ => false
  end.

Fixpoint assoc (k : string) (fields : list (string * Value)) : Value :=
  match fields with
  | [] => Undefined
  | (k', v) :: rest => if k' =? k then v else assoc k rest
  end.

(** [v.k] for the property names the component reads ([board], [id],
    [valid], ...; none of them lives on a prototype).  [None] is the
    TypeError raised on [null] and [undefined]. *)
Definition get (v : Value) (k : string) : option Value :=
  match v with
  | Undefined | Null => None
  | Obj fields => Some (assoc k fields)
  | Bool _ | Num _ | Str _ | Arr _ => Some Undefined
  end.

(** [v[i]] on an array, [undefined] elsewhere or out of range. *)
Definition at_index (v : Value) (i : nat) : Value :=
  match v with
  | Arr items => nth i items Undefined
  | _ => Undefined
  end.

(** [Object.is], with which React compares the dependencies of an effect.
    The values compared here are [gameId] and [status] (strings in the API)
    and [pollInterval] ([null] or a timer handle); arrays and objects, which
    JavaScript compares by identity, are compared by content. *)
Fixpoint same (a b : Value) {struct a} : bool :=
  let fix same_items (xs ys : list Value) {struct xs} : bool :=
    match xs, ys with
    | [], [] => true
    | x :: xs', y :: ys' => same x y && same_items xs' ys'
    | _, _ => false
    end in
  let fix same_fields (xs ys : list (string * Value)) {struct xs} : bool :=
    match xs, ys with
    | [], [] => true
    | (k, x) :: xs', (k', y) :: ys' => (k =? k') && same x y && same_fields xs' ys'
    | _, _ => false
    end in
  match a, b with
  | Undefined, Undefined => true
  | Null, Null => true
  | Bool x, Bool y => Bool.eqb x y
  | Num x, Num y => (x =? y)%Z
  | Str x, Str y => x =? y
  | Arr xs, Arr ys => same_items xs ys
  | Obj xs, Obj ys => same_fields xs ys
  | _, _ => false
  end.

(** The message of the TypeError raised by reading property [k] of [null]
    or [undefined] (V8's wording; the handlers only test it for emptiness). *)
Definition type_error_message (v : Value) (k : string) : string :=
  "Cannot read properties of "
    ++ (match v with Null => "null" | _ => "undefined" end)
    ++ " (reading '" ++ k ++ "')".

(** [msg || fallback] on strings. *)
Definition message_or (msg fallback : string) : string :=
  if msg =? "" then fallback else msg.

End JS.

Import JS.

(** ** Component state *)

(** The state hooks of [App] (the theme hook plays no part and is left out). *)
Record AppState : Type := mkState {
  gameId : Value;
  board : Value;
  currentPlayer : Value;
  status : Value;
  winner : Value;
  moves : Value;
  loading : bool;
  error : Value;
  pollInterval : Value
}.

Definition empty_row : Value := Arr [Str ""; Str ""; Str ""].
Definition empty_board : Value := Arr [empty_row; empty_row; empty_row].

(** The arguments of the [useState] calls. *)
Definition initial_state : AppState :=
  {| gameId := Null;
     board := empty_board;
     currentPlayer := Str "X";
     status := Str "ongoing";
     winner := Null;
     moves := Num 0;
     loading := false;
     error := Str "";
     pollInterval := Null |}.

(** The session fields of the client state. *)
Definition session (s : AppState) : Value * Value * Value * Value * Value * Value :=
  (gameId s, board s, currentPlayer s, status s, winner s, moves s).

(** ** HTTP *)

Inductive Request : Type :=
| GetGame (gid : Value)                    (* GET  /game/${gid} *)
| PostGame                                 (* POST /game *)
| PostMove (game_id : Value) (row col : nat). (* POST /move {game_id,row,col} *)

(** What [res.json()] settles to. *)
Inductive Body : Type :=
| Json (data : Value)
| Malformed (message : string).

Record Response : Type := mkResponse {
  http_status : N;
  body : Body
}.

(** [res.ok]. *)
Definition ok (res : Response) : bool :=
  ((200 <=? http_status res) && (http_status res <=? 299))%N.

(** What [fetch(..)] settles to. *)
Inductive Outcome : Type :=
| Rejected (message : string)
| Resolved (res : Response).

Definition decimal (n : N) : string := NilEmpty.string_of_uint (N.to_uint n).

(** ** Handler bodies: state and exceptions *)

Inductive Completion (A : Type) : Type :=
| Normal (a : A)
| Throw (message : string).
Arguments Normal {A} a.
Arguments Throw {A} message.

Definition Act (A : Type) : Type := AppState -> AppState * Completion A.

Definition ret {A} (a : A) : Act A := fun s => (s, Normal a).
Definition throw {A} (message : string) : Act A := fun s => (s, Throw message).
Definition bind {A B} (c : Act A) (k : A -> Act B) : Act B :=
  fun s =>
    match c s with
    | (s', Normal a) => k a s'
    | (s', Throw m) => (s', Throw m)
    end.

Declare Scope act_scope.
Delimit Scope act_scope with act.
Notation "x <- c ;; k" := (bind c (fun x => k))
  (at level 61, c at next level, right associativity) : act_scope.
Notation "c ;; k" := (bind c (fun _ => k))
  (at level 61, right associativity) : act_scope.

(** [try { body } catch (err) { handler(err.message) } finally { fin }]. *)
Definition try_catch_finally (body : Act unit) (handler : string -> Act unit)
    (fin : Act unit) : AppState -> AppState :=
  fun s =>
    let (s1, r) := body s in
    let s2 := match r with
              | Normal _ => s1
              | Throw m => fst (handler m s1)
              end in
    fst (fin s2).

Definition setGameId (v : Value) : Act unit :=
  fun s => (mkState v (board s) (currentPlayer s) (status s) (winner s) (moves s)
                    (loading s) (error s) (pollInterval s), Normal tt).
Definition setBoard (v : Value) : Act unit :=
  fun s => (mkState (gameId s) v (currentPlayer s) (status s) (winner s) (moves s)
                    (loading s) (error s) (pollInterval s), Normal tt).
Definition setCurrentPlayer (v : Value) : Act unit :=
  fun s => (mkState (gameId s) (board s) v (status s) (winner s) (moves s)
                    (loading s) (error s) (pollInterval s), Normal tt).
Definition setStatus (v : Value) : Act unit :=
  fun s => (mkState (gameId s) (board s) (currentPlayer s) v (winner s) (moves s)
                    (loading s) (error s) (pollInterval s), Normal tt).
Definition setWinner (v : Value) : Act unit :=
  fun s => (mkState (gameId s) (board s) (currentPlayer s) (status s) v (moves s)
                    (loading s) (error s) (pollInterval s), Normal tt).
Definition setMoves (v : Value) : Act unit :=
  fun s => (mkState (gameId s) (board s) (currentPlayer s) (status s) (winner s) v
                    (loading s) (error s) (pollInterval s), Normal tt).
Definition setLoading (b : bool) : Act unit :=
  fun s => (mkState (gameId s) (board s) (currentPlayer s) (status s) (winner s) (moves s)
                    b (error s) (pollInterval s), Normal tt).
Definition setError (v : Value) : Act unit :=
  fun s => (mkState (gameId s) (board s) (currentPlayer s) (status s) (winner s) (moves s)
                    (loading s) v (pollInterval s), Normal tt).
Definition setPollInterval (v : Value) : Act unit :=
  fun s => (mkState (gameId s) (board s) (currentPlayer s) (status s) (winner s) (moves s)
                    (loading s) (error s) v, Normal tt).

(** [await fetch(..)]: a rejection is thrown into the handler. *)
Definition await_fetch (o : Outcome) : Act Response :=
  match o with
  | Rejected m => throw m
  | Resolved res => ret res
  end.

(** [await res.json()]. *)
Definition await_json (res : Response) : Act Value :=
  match body res with
  | Json data => ret data
  | Malformed m => throw m
  end.

(** [v.k] inside a handler. *)
Definition prop (v : Value) (k : string) : Act Value :=
  match get v k with
  | Some x => ret x
  | None => throw (type_error_message v k)
  end.

Definition guard_ok (res : Response) (message : string) : Act unit :=
  if ok res then ret tt else throw message.

Local Open Scope act_scope.

(** ** The handlers *)

(** [fetchGameState(arg)], lines 184-205.  [gid] defaults to the [gameId] of
    the render when the argument is [undefined]. *)
Definition fetch_gid (arg : Value) (s : AppState) : Value :=
  match arg with
  | Undefined => gameId s
  | _ => arg
  end.

Definition fetchGameState_begin (arg : Value) (s : AppState)
    : AppState * option Request :=
  let gid := fetch_gid arg s in
  if negb (truthy gid) then (s, None)
  else (fst (setLoading true s), Some (GetGame gid)).

Definition fetchGameState_resume (o : Outcome) : AppState -> AppState :=
  try_catch_finally
    (res <- await_fetch o ;;
     guard_ok res "Failed to fetch game state" ;;
     data <- await_json res ;;
     b <- prop data "board" ;;
     if truthy b then
       setBoard b ;;
       p <- prop data "current_player" ;; setCurrentPlayer p ;;
       st <- prop data "status" ;; setStatus st ;;
       w <- prop data "winner" ;; setWinner w ;;
       m <- prop data "moves" ;; setMoves m ;;
       i <- prop data "id" ;; setGameId i ;;
       setError (Str "")
     else ret tt)
    (fun message => setError (Str (message_or message "Could not fetch game state")))
    (setLoading false).

(** [startNewGame()], lines 208-227. *)
Definition startNewGame_begin (s : AppState) : AppState * option Request :=
  (fst ((setLoading true ;; setError (Str "")) s), Some PostGame).

Definition startNewGame_resume (o : Outcome) : AppState -> AppState :=
  try_catch_finally
    (res <- await_fetch o ;;
     guard_ok res "Failed to start new game" ;;
     data <- await_json res ;;
     i <- prop data "id" ;; setGameId i ;;
     b <- prop data "board" ;; setBoard b ;;
     p <- prop data "current_player" ;; setCurrentPlayer p ;;
     st <- prop data "status" ;; setStatus st ;;
     w <- prop data "winner" ;; setWinner (or_else w Null) ;;
     m <- prop data "moves" ;; setMoves (or_else m (Num 0)) ;;
     setError (Str ""))
    (fun message => setError (Str (message_or message "Could not start a new game")))
    (setLoading false).

(** [handleCellClick(r, c)], lines 230-258.  In the continuation [state] is
    the value of [data.valid && data.state]. *)
Definition handleCellClick_begin (r c : nat) (s : AppState)
    : AppState * option Request :=
  if negb (is_str (status s) "ongoing") || negb (truthy (gameId s)) then (s, None)
  else (fst ((setLoading true ;; setError (Str "")) s),
        Some (PostMove (gameId s) r c)).

Definition handleCellClick_resume (o : Outcome) : AppState -> AppState :=
  try_catch_finally
    (res <- await_fetch o ;;
     guard_ok res ("Move failed (" ++ decimal (http_status res) ++ ")") ;;
     data <- await_json res ;;
     v <- prop data "valid" ;;
     state <- (if truthy v then prop data "state" else ret v) ;;
     if truthy state then
       b <- prop state "board" ;; setBoard b ;;
       p <- prop state "current_player" ;; setCurrentPlayer p ;;
       st <- prop state "status" ;; setStatus st ;;
       w <- prop state "winner" ;; setWinner (or_else w Null) ;;
       m <- prop state "moves" ;; setMoves m ;;
       setError (Str "")
     else
       e <- prop data "error" ;;
       setError (or_else e (Str "Illegal move")))
    (fun message => setError (Str (message_or message "Could not submit move")))
    (setLoading false).

Local Close Scope act_scope.

(** ** Presentation: the cells of the board *)

(** [board[r][c]] as [Board] walks it with [board.map(row => row.map(..))]:
    a button exists for each cell of each row. *)
Definition cell_at (b : Value) (r c : nat) : option Value :=
  match b with
  | Arr rows =>
      match nth_error rows r with
      | Some (Arr cells) => nth_error cells c
      | _ => None
      end
  | _ => None
  end.

(** The [disabled] prop that [App] passes to [Board], line 338. *)
Definition board_disabled (s : AppState) : bool :=
  negb (is_str (status s) "ongoing") || loading s.

(** The [disabled] attribute of a cell button, line 34. *)
Definition cell_disabled (s : AppState) (cell : Value) : bool :=
  board_disabled s || negb (is_str cell "").
(** ** The presentation components *)

Definition PRIMARY_COLOR : string := "#1976d2".
Definition SECONDARY_COLOR : string := "#424242".
Definition ACCENT_COLOR : string := "#f50057".

(** [arr.map((x, i) => f(i, x))]. *)
Fixpoint mapi_from {A B} (i : nat) (f : nat -> A -> B) (l : list A) : list B :=
  match l with
  | [] => []
  | x :: l' => f i x :: mapi_from (S i) f l'
  end.

Definition mapi {A B} (f : nat -> A -> B) (l : list A) : list B := mapi_from 0 f l.

(** All the rows render, or the render throws. *)
Fixpoint all_some {A} (l : list (option A)) : option (list A) :=
  match l with
  | [] => Some []
  | None :: _ => None
  | Some x :: l' =>
      match all_some l' with
      | Some xs => Some (x :: xs)
      | None => None
      end
  end.

Definition decimal_nat (n : nat) : string := decimal (N.of_nat n).

(** What [Board] computes for one [<button>], lines 32-51. *)
Record CellButton : Type := mkButton {
  btn_key : string;          (* key={`${r}-${c}`} *)
  btn_disabled : bool;       (* disabled={disabled || cell !== ''} *)
  btn_target : nat * nat;    (* onClick={() => onCellClick(r, c)} *)
  btn_label : string;        (* aria-label={`Row ${r + 1} Col ${c + 1}`} *)
  btn_color : string;
  btn_cursor : string;
  btn_content : Value        (* {cell} *)
}.

Definition cell_button (disabled : bool) (r c : nat) (cell : Value) : CellButton :=
  {| btn_key := decimal_nat r ++ "-" ++ decimal_nat c;
     btn_disabled := disabled || negb (is_str cell "");
     btn_target := (r, c);
     btn_label := "Row " ++ decimal_nat (r + 1) ++ " Col " ++ decimal_nat (c + 1);
     btn_color := if is_str cell "X" then PRIMARY_COLOR
                  else if is_str cell "O" then ACCENT_COLOR
                  else SECONDARY_COLOR;
     btn_cursor := if negb (is_str cell "") || disabled then "not-allowed"
                   else "pointer";
     btn_content := cell |}.

(** [row.map((cell, c) => <button .. />)]; [None] is the TypeError of
    calling [map] on something that is not an array. *)
Definition Board_row (disabled : bool) (r : nat) (row : Value)
    : option (list CellButton) :=
  match row with
  | Arr cells => Some (mapi (cell_button disabled r) cells)
  | _ => None
  end.

(** [Board({board, onCellClick, disabled})], lines 17-56. *)
Definition Board (b : Value) (disabled : bool) : option (list (list CellButton)) :=
  match b with
  | Arr rows => all_some (mapi (Board_row disabled) rows)
  | _ => None
  end.

(** [PlayerIndicator({currentPlayer, status, winner})], lines 59-82: the
    text it shows and the colour of the name in it. *)
Inductive Indicator : Type :=
| ShowWinner (color : string) (name : Value)
| ShowDraw
| ShowTurn (color : string) (name : Value).

Definition PlayerIndicator (player st win : Value) : Indicator :=
  if is_str st "win" then
    ShowWinner (if is_str win "X" then PRIMARY_COLOR else ACCENT_COLOR) win
  else if is_str st "draw" then ShowDraw
  else ShowTurn (if is_str player "X" then PRIMARY_COLOR else ACCENT_COLOR) player.

(** [ErrorBanner({message})], lines 118-133: [None] is the [null] it
    returns for a falsy message. *)
Definition ErrorBanner (message : Value) : option Value :=
  if negb (truthy message) then None else Some message.

(** What [App] hands to its children for a state, lines 328-345 (static
    styles are left out): the props and children it computes, before any of
    them is rendered.  [view_board] is [None] when [Board] throws; whether the
    render as a whole goes through is [App_render] below. *)
Record View : Type := mkView {
  view_indicator : Indicator;
  view_error : option Value;
  view_spinner : bool;              (* {loading && <LoadingSpinner />} *)
  view_pointer_events : string;     (* pointerEvents: loading ? 'none' : 'auto' *)
  view_board : option (list (list CellButton));
  view_new_game_disabled : bool;    (* GameControls disabled={loading} *)
  view_moves : Value                (* Moves: {moves} *)
}.

Definition App_view (s : AppState) : View :=
  {| view_indicator := PlayerIndicator (currentPlayer s) (status s) (winner s);
     view_error := ErrorBanner (error s);
     view_spinner := loading s;
     view_pointer_events := if loading s then "none" else "auto";
     view_board := Board (board s) (board_disabled s);
     view_new_game_disabled := loading s;
     view_moves := moves s |}.

(** The button of cell [(r, c)] in a rendered board. *)
Definition button_at (rows : list (list CellButton)) (r c : nat) : option CellButton :=
  match nth_error rows r with
  | Some row => nth_error row c
  | None => None
  end.

Definition is_array (v : Value) : bool :=
  match v with
  | Arr _ => true
  | _ => false
  end.

(** The buttons [App] shows for state [s] (none when [Board] throws). *)
Definition buttons_of (s : AppState) : list (list CellButton) :=
  match view_board (App_view s) with
  | Some rows => rows
  | None => []
  end.

(** ** When the render throws *)

(** What React accepts as a child: strings and numbers are text, booleans,
    [null] and [undefined] show nothing, an array shows its items; a plain
    object (the only kind of object a JSON body yields) makes the render
    throw. *)
Fixpoint renderable (v : Value) : bool :=
  match v with
  | Obj _ => false
  | Arr items =>
      (fix all (l : list Value) : bool :=
         match l with
         | [] => true
         | x :: l' => renderable x && all l'
         end) items
  | _ => true
  end.

(** [{winner}] and [{currentPlayer}] in [PlayerIndicator], lines 65 and 73. *)
Definition Indicator_renders (i : Indicator) : bool :=
  match i with
  | ShowWinner _ name | ShowTurn _ name => renderable name
  | ShowDraw => true
  end.

(** [{message}] in [ErrorBanner], line 130. *)
Definition ErrorBanner_renders (banner : option Value) : bool :=
  match banner with
  | Some message => renderable message
  | None => true
  end.

(** [board.map], [row.map] and [{cell}] in [Board], lines 30-50. *)
Definition Board_renders (b : option (list (list CellButton))) : bool :=
  match b with
  | Some rows => forallb (forallb (fun btn => renderable (btn_content btn))) rows
  | None => false
  end.

(** The render of [App]: [None] when a child throws, in which case React
    unmounts the whole tree (no error boundary is set up), and nothing is on
    screen from then on. *)
Definition App_render (s : AppState) : option View :=
  let v := App_view s in
  if Indicator_renders (view_indicator v)
     && ErrorBanner_renders (view_error v)
     && Board_renders (view_board v)
     && renderable (view_moves v)        (* {moves} in GameControls, line 111 *)
  then Some v
  else None.

(** The same test read off the state. *)
Definition board_ok (b : Value) : bool :=
  match b with
  | Arr rows =>
      forallb (fun row => match row with
                          | Arr cells => forallb renderable cells
                          | _ => false
                          end) rows
  | _ => false
  end.

Definition App_renders (s : AppState) : bool :=
  Indicator_renders (PlayerIndicator (currentPlayer s) (status s) (winner s))
  && ErrorBanner_renders (ErrorBanner (error s))
  && board_ok (board s)
  && renderable (moves s).

(** ** User input *)

(** A user click on the button of cell [(r, c)] of the rendered board: a
    disabled button, or one that does not exist (no such cell, or no render),
    fires no [onClick]. *)
Definition click_cell (r c : nat) (s : AppState) : AppState * option Request :=
  match App_render s with
  | Some v =>
      match view_board v with
      | Some rows =>
          match button_at rows r c with
          | Some btn =>
              if btn_disabled btn then (s, None)
              else handleCellClick_begin (fst (btn_target btn)) (snd (btn_target btn)) s
          | None => (s, None)
          end
      | None => (s, None)
      end
  | None => (s, None)
  end.

(** A user click on the rendered "New Game" button, disabled while
    [loading], line 342. *)
Definition click_new_game (s : AppState) : AppState * option Request :=
  match App_render s with
  | Some v =>
      if view_new_game_disabled v then (s, None) else startNewGame_begin s
  | None => (s, None)
  end.

(** ** Timers and the polling effect *)

(** Live intervals: the handle returned by [setInterval] (a positive
    integer) and the [gameId] its callback closed over. *)
Record Timers : Type := mkTimers {
  active : list (positive * Value);
  next_handle : positive
}.

Definition setInterval (gid : Value) (t : Timers) : positive * Timers :=
  (next_handle t,
   {| active := (next_handle t, gid) :: active t;
      next_handle := Pos.succ (next_handle t) |}).

Definition clearInterval (h : Value) (t : Timers) : Timers :=
  match h with
  | Num (Zpos p) =>
      {| active := filter (fun e => negb (Pos.eqb (fst e) p)) (active t);
         next_handle := next_handle t |}
  | _ => t
  end.

(** The function an effect returns. *)
Inductive Cleanup : Type :=
| NoCleanup                          (* the bare [return] of line 265 *)
| ClearCreated (interval : positive) (* [() => clearInterval(interval)], line 273 *)
| ClearStored (stored : Value).      (* lines 276-278, over the rendered [pollInterval] *)

Definition run_cleanup (c : Cleanup) (t : Timers) : Timers :=
  match c with
  | NoCleanup => t
  | ClearCreated h => clearInterval (Num (Zpos h)) t
  | ClearStored p => if truthy p then clearInterval p t else t
  end.

(** The body of the polling effect, lines 261-279, run on the rendered
    state [s]. *)
Definition poll_effect (s : AppState) (t : Timers) : AppState * Timers * Cleanup :=
  if negb (truthy (gameId s)) || negb (is_str (status s) "ongoing") then
    let t' := if truthy (pollInterval s) then clearInterval (pollInterval s) t else t in
    (fst (setPollInterval Null s), t', NoCleanup)
  else if negb (truthy (pollInterval s)) then
    let (interval, t') := setInterval (gameId s) t in
    (fst (setPollInterval (Num (Zpos interval)) s), t', ClearCreated interval)
  else
    (s, t, ClearStored (pollInterval s)).

(** The dependency array [[gameId, status, fetchGameState, pollInterval]];
    [fetchGameState] is memoised on [[gameId]] and changes with it. *)
Definition Deps : Type := (Value * Value * Value)%type.

Definition deps_of (s : AppState) : Deps := (gameId s, status s, pollInterval s).

Definition same_deps (a b : Deps) : bool :=
  let '(g, st, p) := a in
  let '(g', st', p') := b in
  same g g' && same st st' && same p p'.

(** The mounted component: hook state, live timers, what React remembers of
    the polling effect, and the requests in flight. *)
Record World : Type := mkWorld {
  app : AppState;
  timers : Timers;
  poll_deps : option Deps;
  poll_cleanup : Cleanup;
  pending : list Request
}.

Definition run_poll_effect (w : World) : World :=
  let t1 := run_cleanup (poll_cleanup w) (timers w) in
  let '(s', t2, c) := poll_effect (app w) t1 in
  {| app := s'; timers := t2; poll_deps := Some (deps_of (app w));
     poll_cleanup := c; pending := pending w |}.

(** One render followed by its effects: the polling effect is re-run (after
    the cleanup of its previous run) when a dependency changed. *)
Definition commit (w : World) : World :=
  match poll_deps w with
  | Some d => if same_deps d (deps_of (app w)) then w else run_poll_effect w
  | None => run_poll_effect w
  end.

Fixpoint settle (fuel : nat) (w : World) : World :=
  match fuel with
  | O => w
  | S fuel' => settle fuel' (commit w)
  end.

(** The renders that follow an event.  Two are enough for the effect to come
    to rest ([render_rests] below). *)
Definition render : World -> World := settle 2.

Definition dispatch (w : World) (r : AppState * option Request) : World :=
  {| app := fst r; timers := timers w; poll_deps := poll_deps w;
     poll_cleanup := poll_cleanup w;
     pending := match snd r with
                | Some req => pending w ++ [req]
                | None => pending w
                end |}.

(** Mount: first render, the polling effect, then the mount effect
    [startNewGame()], lines 282-285. *)
Definition mount : World :=
  let w := commit {| app := initial_state;
                     timers := {| active := []; next_handle := 1 |};
                     poll_deps := None; poll_cleanup := NoCleanup;
                     pending := [] |} in
  render (dispatch w (startNewGame_begin (app w))).

Inductive Event : Type :=
| ClickCell (r c : nat)
| ClickNewGame
| Tick (handle : positive)
| Settled (index : nat) (o : Outcome).

Fixpoint remove_nth {A} (i : nat) (l : list A) : list A :=
  match l, i with
  | [], _ => []
  | _ :: l', O => l'
  | x :: l', S i' => x :: remove_nth i' l'
  end.

Definition resume (req : Request) (o : Outcome) : AppState -> AppState :=
  match req with
  | GetGame _ => fetchGameState_resume o
  | PostGame => startNewGame_resume o
  | PostMove _ _ _ => handleCellClick_resume o
  end.

Fixpoint callback_of (h : positive) (l : list (positive * Value)) : option Value :=
  match l with
  | [] => None
  | (h', gid) :: l' => if Pos.eqb h' h then Some gid else callback_of h l'
  end.

(** What an event does before the renders that follow it.  Clicks go
    through the buttons of the rendered view ([click_cell],
    [click_new_game]): once a render has thrown and React has unmounted the
    tree no button is left, and by then no interval runs and no request is in
    flight, so that no event changes anything any more ([crash_is_final]
    below). *)
Definition handle_event (e : Event) (w : World) : World :=
  match e with
  | ClickCell r c => dispatch w (click_cell r c (app w))
  | ClickNewGame => dispatch w (click_new_game (app w))
  | Tick h =>
      match callback_of h (active (timers w)) with
      | Some gid => dispatch w (fetchGameState_begin gid (app w))
      | None => w
      end
  | Settled i o =>
      match nth_error (pending w) i with
      | Some req =>
          {| app := resume req o (app w); timers := timers w;
             poll_deps := poll_deps w; poll_cleanup := poll_cleanup w;
             pending := remove_nth i (pending w) |}
      | None => w
      end
  end.

Definition step (e : Event) (w : World) : World := render (handle_event e w).

Definition run (es : list Event) : World := fold_left (fun w e => step e w) es mount.

Inductive reachable : World -> Prop :=
| reach_mount : reachable mount
| reach_step e w : reachable w -> reachable (step e w).

(** ** Server responses used in the scenarios *)

Definition http_ok (data : Value) : Outcome :=
  Resolved {| http_status := 200; body := Json data |}.

(** [{id:"g1", board: 3x3 empty, current_player:"X", status:"ongoing", moves:0}] *)
Definition created_g1 : Value :=
  Obj [("id", Str "g1"); ("board", empty_board); ("current_player", Str "X");
       ("status", Str "ongoing"); ("moves", Num 0)].

Definition board_center_X : Value :=
  Arr [empty_row; Arr [Str ""; Str "X"; Str ""]; empty_row].

(** [{valid:true, state:{board: center "X", current_player:"O",
      status:"ongoing", moves:1}}] *)
Definition moved_center : Value :=
  Obj [("valid", Bool true);
       ("state", Obj [("board", board_center_X); ("current_player", Str "O");
                      ("status", Str "ongoing"); ("moves", Num 1)])].

(** ** Classifying what a request settles to *)

(** [null] and [undefined]: the values whose properties cannot be read. *)
Definition nullish (v : Value) : bool :=
  match v with
  | Undefined | Null => true
  | _ => false
  end.

(** [v.k] where the read cannot throw. *)
Definition field (v : Value) (k : string) : Value :=
  match get v k with
  | Some x => x
  | None => Undefined
  end.

(** The request failed before any setter of the [try] block ran: [fetch]
    rejected, the status is outside 200-299, [res.json()] rejected, or the
    body is [null], so that the first property read throws. *)
Definition failed (o : Outcome) : bool :=
  match o with
  | Rejected _ => true
  | Resolved res =>
      negb (ok res) ||
      match body res with
      | Malformed _ => true
      | Json data => nullish data
      end
  end.

(** The three ways the continuation of [handleCellClick] goes, as the code
    branches (lines 240-255).  This is the code's own case split, not the
    spec's taxonomy: a 2xx body is never checked for its shape, so a body
    that is no MoveResult still ends in one of the last two cases. *)
Inductive MoveResult : Type :=
| Failure                      (* the [try] block threw before any setter ran:
                                  see [failed] *)
| NotAccepted (reason : Value) (* [data.valid && data.state] is falsy: the
                                  [else] branch, with [data.error] *)
| Accepted (state : Value).    (* [data.valid && data.state] is truthy: the
                                  [then] branch, with [data.state], of
                                  whatever shape *)

Definition move_result (o : Outcome) : MoveResult :=
  if failed o then Failure
  else match o with
       | Resolved {| body := Json data |} =>
           if truthy (field data "valid") && truthy (field data "state")
           then Accepted (field data "state")
           else NotAccepted (field data "error")
       | _ => Failure
       end.

(** The state left by a [catch] that stores [m], followed by the [finally]. *)
Definition caught (m : string) (s : AppState) : AppState :=
  fst (setLoading false (fst (setError (Str m) s))).

(** The state left by the [finally] alone. *)
Definition finished (s : AppState) : AppState := fst (setLoading false s).

(** The states left by the three success paths, over a readable body. *)
Definition fetched (data : Value) (s : AppState) : AppState :=
  {| gameId := field data "id";
     board := field data "board";
     currentPlayer := field data "current_player";
     status := field data "status";
     winner := field data "winner";
     moves := field data "moves";
     loading := false;
     error := Str "";
     pollInterval := pollInterval s |}.

Definition created (data : Value) (s : AppState) : AppState :=
  {| gameId := field data "id";
     board := field data "board";
     currentPlayer := field data "current_player";
     status := field data "status";
     winner := or_else (field data "winner") Null;
     moves := or_else (field data "moves") (Num 0);
     loading := false;
     error := Str "";
     pollInterval := pollInterval s |}.

Definition moved (state : Value) (s : AppState) : AppState :=
  {| gameId := gameId s;
     board := field state "board";
     currentPlayer := field state "current_player";
     status := field state "status";
     winner := or_else (field state "winner") Null;
     moves := field state "moves";
     loading := false;
     error := Str "";
     pollInterval := pollInterval s |}.

(** What a fetch response makes the continuation store, if anything. *)
Definition fetch_payload (o : Outcome) : option Value :=
  if failed o then None
  else match o with
       | Resolved {| body := Json data |} =>
           if truthy (field data "board") then Some data else None
       | _ => None
       end.

(** What a create response makes the continuation store, if anything. *)
Definition create_payload (o : Outcome) : option Value :=
  if failed o then None
  else match o with
       | Resolved {| body := Json data |} => Some data
       | _ => None
       end.

(** The first test of the polling effect: no session, or a game that is
    not ongoing. *)
Definition no_session (s : AppState) : bool :=
  negb (truthy (gameId s)) || negb (is_str (status s) "ongoing").

(** The effect last ran on the dependencies of the current state. *)
Definition at_rest (w : World) : Prop := poll_deps w = Some (deps_of (app w)).

(** ** Scenarios *)

Definition grid (rows : list (list string)) : Value :=
  Arr (map (fun row => Arr (map Str row)) rows).

Definition game_json (rows : list (list string)) (player st : string)
    (win : Value) (n : Z) : Value :=
  Obj [("id", Str "g1"); ("board", grid rows); ("current_player", Str player);
       ("status", Str st); ("winner", win); ("moves", Num n)].

Definition move_json (rows : list (list string)) (player st : string)
    (win : Value) (n : Z) : Value :=
  Obj [("valid", Bool true); ("state", game_json rows player st win n)].

(** The session "g1" exists and is ongoing. *)
Definition session_created : World := run [Settled 0 (http_ok created_g1)].

(** The user then clicks the centre cell: the move request is in flight. *)
Definition move_in_flight : World :=
  run [Settled 0 (http_ok created_g1); ClickCell 1 1].

(** The server rejects that move: [{valid:false, error:"Illegal move"}]. *)
Definition illegal_move : Value :=
  Obj [("valid", Bool false); ("error", Str "Illegal move")].

Definition move_rejected : World :=
  run [Settled 0 (http_ok created_g1); ClickCell 1 1;
       Settled 0 (http_ok illegal_move)].

(** The centre move is accepted. *)
Definition centre_played : World :=
  run [Settled 0 (http_ok created_g1); ClickCell 1 1;
       Settled 0 (http_ok moved_center)].

(** A whole game: X takes the top row on the fifth move. *)
Definition rows4 : list (list string) := [["X"; "X"; ""]; ["O"; "O"; ""]; [""; ""; ""]].
Definition rows5 : list (list string) := [["X"; "X"; "X"]; ["O"; "O"; ""]; [""; ""; ""]].

Definition game_won : World :=
  run [Settled 0 (http_ok created_g1);
       ClickCell 0 0;
       Settled 0 (http_ok (move_json [["X"; ""; ""]; [""; ""; ""]; [""; ""; ""]] "O" "ongoing" Null 1));
       ClickCell 1 0;
       Settled 0 (http_ok (move_json [["X"; ""; ""]; ["O"; ""; ""]; [""; ""; ""]] "X" "ongoing" Null 2));
       ClickCell 0 1;
       Settled 0 (http_ok (move_json [["X"; "X"; ""]; ["O"; ""; ""]; [""; ""; ""]] "O" "ongoing" Null 3));
       ClickCell 1 1;
       Settled 0 (http_ok (move_json rows4 "X" "ongoing" Null 4));
       ClickCell 0 2;
       Settled 0 (http_ok (move_json rows5 "O" "win" (Str "X") 5))].

(** The answer to a [GET /game/g1] that the server served before the fifth
    move. *)
Definition stale_g1 : Value := game_json rows4 "X" "ongoing" Null 4.

(** ** The theme hook, lines 162-168 and 303-309 *)

Definition initial_theme : Value := Str "light".

(** [prev => prev === 'light' ? 'dark' : 'light']. *)
Definition toggleTheme (prev : Value) : Value :=
  if is_str prev "light" then Str "dark" else Str "light".

(** [`Switch to ${theme === 'light' ? 'dark' : 'light'} mode`]. *)
Definition theme_label (theme : Value) : string :=
  "Switch to " ++ (if is_str theme "light" then "dark" else "light") ++ " mode".

(** ** Teardown *)

(** Unmounting runs the cleanup of the last run of the polling effect. *)
Definition unmount (w : World) : Timers := run_cleanup (poll_cleanup w) (timers w).

(** The requests the component can have in flight. *)
Definition is_fetch (req : Request) : bool :=
  match req with
  | GetGame _ => true
  | _ => false
  end.

(** ** Invariants of the mounted component *)

(** [pollInterval] says whether a session is ongoing: it is [null] when
    there is none, and a handle that [setInterval] returned when there is
    one. *)
Definition handle_tracks_session (w : World) : Prop :=
  (no_session (app w) = true /\ pollInterval (app w) = Null)
  \/ (no_session (app w) = false
      /\ exists h, pollInterval (app w) = Num (Zpos h)
                   /\ (h < next_handle (timers w))%positive).

(** Nothing is in flight and [loading] is down, or one create or move
    request is in flight and [loading] is up. *)
Definition single_flight (w : World) : Prop :=
  (pending w = [] /\ loading (app w) = false)
  \/ (exists req, pending w = [req] /\ is_fetch req = false
                  /\ loading (app w) = true).

(** What the polling effect changes of the state is [pollInterval] alone. *)
Definition only_poll_changed (s s' : AppState) : Prop :=
  session s' = session s /\ loading s' = loading s /\ error s' = error s.

(** What holds of a request in flight: the state it left behind renders,
    and a move is in flight only while the game is ongoing. *)
Definition in_flight_ok (w : World) : Prop :=
  forall req, In req (pending w) ->
    App_renders (app w) = true
    /\ match req with
       | PostMove _ _ _ => is_str (status (app w)) "ongoing" = true
       | _ => True
       end.

(** The events [es] played from world [w]. *)
Definition run_from (w : World) (es : list Event) : World :=
  fold_left (fun w e => step e w) es w.

(** ** More scenarios *)

(** [{valid:true, state:{}}]: accepted, with a state that is no GameState. *)
Definition shapeless_move : Value := Obj [("valid", Bool true); ("state", Obj [])].

Definition shapeless_move_stored : World :=
  run [Settled 0 (http_ok created_g1); ClickCell 1 1;
       Settled 0 (http_ok shapeless_move)].

(** [{valid:false, error:42}]: a rejection whose error is not a string. *)
Definition numeric_error : Value := Obj [("valid", Bool false); ("error", Num 42)].

Definition numeric_error_stored : World :=
  run [Settled 0 (http_ok created_g1); ClickCell 1 1;
       Settled 0 (http_ok numeric_error)].

(** * Basic facts *)

Lemma message_or_nonempty m fallback :
  fallback <> "" -> message_or m fallback <> "".
Proof.
  unfold message_or. destruct (String.eqb_spec m ""); auto.
Qed.

Lemma get_nullish data k : nullish data = true -> get data k = None.
Proof. destruct data; simpl; intros H; try discriminate; reflexivity. Qed.

Lemma get_field data k : nullish data = false -> get data k = Some (field data k).
Proof.
  unfold field. destruct data; simpl; intros H; try discriminate; reflexivity.
Qed.

Lemma truthy_not_nullish data : truthy data = true -> nullish data = false.
Proof. destruct data; simpl; intros H; try discriminate; reflexivity. Qed.

Lemma failed_false_inv o :
  failed o = false ->
  exists st data, o = Resolved {| http_status := st; body := Json data |}
    /\ ok {| http_status := st; body := Json data |} = true
    /\ nullish data = false.
Proof.
  destruct o as [m | [st [data | m]]]; simpl; try discriminate.
  - intros H. apply orb_false_iff in H as [Hok Hb].
    apply negb_false_iff in Hok.
    exists st, data. repeat split; auto.
  - intros H. apply orb_false_iff in H as [_ H]. discriminate.
Qed.

Lemma session_caught m s : session (caught m s) = session s.
Proof. reflexivity. Qed.

Ltac unfold_handler :=
  cbv [fetchGameState_resume startNewGame_resume handleCellClick_resume
       try_catch_finally bind ret throw await_fetch await_json guard_ok prop].

Ltac stored_message :=
  eexists; split; [| reflexivity];
  try (apply message_or_nonempty); discriminate.

(** Each handler, on a failed request, only stores a non-empty message and
    lowers [loading]. *)
Lemma fetchGameState_resume_failed o s :
  failed o = true ->
  exists m, m <> "" /\ fetchGameState_resume o s = caught m s.
Proof.
  intros H. unfold_handler.
  destruct o as [m | res]; simpl in *; [stored_message |].
  destruct (ok res); simpl in *; [| stored_message].
  destruct (body res) as [data | m]; [| stored_message].
  rewrite (get_nullish _ "board" H). stored_message.
Qed.

Lemma startNewGame_resume_failed o s :
  failed o = true ->
  exists m, m <> "" /\ startNewGame_resume o s = caught m s.
Proof.
  intros H. unfold_handler.
  destruct o as [m | res]; simpl in *; [stored_message |].
  destruct (ok res); simpl in *; [| stored_message].
  destruct (body res) as [data | m]; [| stored_message].
  rewrite (get_nullish _ "id" H). stored_message.
Qed.

Lemma handleCellClick_resume_failed o s :
  failed o = true ->
  exists m, m <> "" /\ handleCellClick_resume o s = caught m s.
Proof.
  intros H. unfold_handler.
  destruct o as [m | res]; simpl in *; [stored_message |].
  destruct (ok res); simpl in *; [| stored_message].
  destruct (body res) as [data | m]; [| stored_message].
  rewrite (get_nullish _ "valid" H). stored_message.
Qed.

(** The three continuations on a readable body of a 2xx response. *)
Lemma fetchGameState_resume_ok st data s :
  ok {| http_status := st; body := Json data |} = true ->
  nullish data = false ->
  fetchGameState_resume (Resolved {| http_status := st; body := Json data |}) s
  = if truthy (field data "board") then fetched data s else finished s.
Proof.
  intros Hok Hn. unfold_handler. simpl. rewrite Hok.
  rewrite !(get_field _ _ Hn).
  destruct (truthy (field data "board")); reflexivity.
Qed.

Lemma startNewGame_resume_ok st data s :
  ok {| http_status := st; body := Json data |} = true ->
  nullish data = false ->
  startNewGame_resume (Resolved {| http_status := st; body := Json data |}) s
  = created data s.
Proof.
  intros Hok Hn. unfold_handler. simpl. rewrite Hok.
  rewrite !(get_field _ _ Hn). reflexivity.
Qed.

Lemma handleCellClick_resume_ok st data s :
  ok {| http_status := st; body := Json data |} = true ->
  nullish data = false ->
  handleCellClick_resume (Resolved {| http_status := st; body := Json data |}) s
  = if truthy (field data "valid") && truthy (field data "state")
    then moved (field data "state") s
    else fst (setLoading false
               (fst (setError (or_else (field data "error") (Str "Illegal move")) s))).
Proof.
  intros Hok Hn. unfold_handler. simpl. rewrite Hok.
  rewrite !(get_field _ _ Hn).
  destruct (truthy (field data "valid")) eqn:Hv; simpl.
  - destruct (truthy (field data "state")) eqn:Hs.
    + rewrite !(get_field _ _ (truthy_not_nullish _ Hs)). reflexivity.
    + reflexivity.
  - try rewrite Hv. reflexivity.
Qed.

(** * The polling effect comes to rest, with no timer left *)

Lemma same_refl : forall v, same v v = true.
Proof.
  fix IH 1. intros [ | | b | n | s | items | fields]; simpl; try reflexivity.
  - apply Bool.eqb_reflx.
  - apply Z.eqb_refl.
  - apply String.eqb_refl.
  - induction items as [| x xs IHxs]; [reflexivity |].
    rewrite IH. exact IHxs.
  - induction fields as [| [k x] xs IHxs]; [reflexivity |].
    rewrite String.eqb_refl, IH. exact IHxs.
Qed.

Lemma same_deps_refl d : same_deps d d = true.
Proof. destruct d as [[g st] p]. simpl. rewrite !same_refl. reflexivity. Qed.

(** A handle returned by [setInterval] differs from any falsy value. *)
Lemma same_falsy_handle p h : truthy p = false -> same p (Num (Zpos h)) = false.
Proof.
  destruct p; simpl; try reflexivity.
  intros H. apply negb_false_iff in H. apply Z.eqb_eq in H. subst. reflexivity.
Qed.

Lemma commit_at_rest w : at_rest w -> commit w = w.
Proof.
  unfold at_rest, commit. intros ->. rewrite same_deps_refl. reflexivity.
Qed.

Lemma commit_cases w : commit w = w \/ commit w = run_poll_effect w.
Proof.
  unfold commit. destruct (poll_deps w) as [d |]; [| now right].
  destruct (same_deps d (deps_of (app w))); [now left | now right].
Qed.

Lemma poll_effect_idle s t :
  no_session s = true ->
  exists t', poll_effect s t = (fst (setPollInterval Null s), t', NoCleanup)
    /\ (active t = [] -> active t' = []).
Proof.
  unfold poll_effect, no_session. intros ->.
  destruct (truthy (pollInterval s)); eexists; split; try reflexivity; auto.
  unfold clearInterval. destruct (pollInterval s) as [ | | | [ | q | q] | | |];
    auto. simpl. intros ->. reflexivity.
Qed.

Lemma poll_effect_start s t :
  no_session s = false -> truthy (pollInterval s) = false ->
  poll_effect s t =
    (fst (setPollInterval (Num (Zpos (next_handle t))) s),
     snd (setInterval (gameId s) t), ClearCreated (next_handle t)).
Proof.
  unfold poll_effect, no_session. intros -> ->. reflexivity.
Qed.

Lemma poll_effect_keep s t :
  no_session s = false -> truthy (pollInterval s) = true ->
  poll_effect s t = (s, t, ClearStored (pollInterval s)).
Proof.
  unfold poll_effect, no_session. intros -> ->. reflexivity.
Qed.

Lemma clearInterval_nil h t : active t = [] -> active (clearInterval h t) = [].
Proof.
  unfold clearInterval. destruct h as [ | | | [ | q | q] | | |]; auto.
  simpl. intros ->. reflexivity.
Qed.

Lemma run_cleanup_nil c t : active t = [] -> active (run_cleanup c t) = [].
Proof.
  intros H. destruct c as [| h | stored]; unfold run_cleanup.
  - exact H.
  - now apply clearInterval_nil.
  - destruct (truthy stored); [now apply clearInterval_nil | exact H].
Qed.

Lemma clear_created t gid :
  active t = [] ->
  active (clearInterval (Num (Zpos (next_handle t))) (snd (setInterval gid t))) = [].
Proof.
  intros H. simpl. rewrite H, Pos.eqb_refl. reflexivity.
Qed.

Lemma run_poll_effect_idle w :
  no_session (app w) = true -> active (timers w) = [] ->
  exists t', active t' = [] /\
    run_poll_effect w =
      {| app := fst (setPollInterval Null (app w)); timers := t';
         poll_deps := Some (deps_of (app w)); poll_cleanup := NoCleanup;
         pending := pending w |}.
Proof.
  intros Hns Ht. unfold run_poll_effect.
  destruct (poll_effect_idle _ (run_cleanup (poll_cleanup w) (timers w)) Hns)
    as (t' & -> & Ht').
  exists t'. split; [| reflexivity].
  apply Ht', run_cleanup_nil, Ht.
Qed.

Lemma run_poll_effect_keep w :
  no_session (app w) = false -> truthy (pollInterval (app w)) = true ->
  run_poll_effect w =
    {| app := app w; timers := run_cleanup (poll_cleanup w) (timers w);
       poll_deps := Some (deps_of (app w));
       poll_cleanup := ClearStored (pollInterval (app w));
       pending := pending w |}.
Proof.
  intros Hns Hp. unfold run_poll_effect.
  rewrite (poll_effect_keep _ _ Hns Hp). reflexivity.
Qed.

Lemma run_poll_effect_start w :
  no_session (app w) = false -> truthy (pollInterval (app w)) = false ->
  let t1 := run_cleanup (poll_cleanup w) (timers w) in
  run_poll_effect w =
    {| app := fst (setPollInterval (Num (Zpos (next_handle t1))) (app w));
       timers := snd (setInterval (gameId (app w)) t1);
       poll_deps := Some (deps_of (app w));
       poll_cleanup := ClearCreated (next_handle t1);
       pending := pending w |}.
Proof.
  intros Hns Hp. unfold run_poll_effect.
  rewrite (poll_effect_start _ _ Hns Hp). reflexivity.
Qed.

(** After an arbitrary state change, two renders bring the effect to rest
    and leave no interval running. *)
Lemma render_rests w :
  active (timers w) = [] ->
  commit (render w) = render w /\ active (timers (render w)) = []
  /\ pending (render w) = pending w.
Proof.
  intros Ht. unfold render, settle.
  destruct (commit_cases w) as [E | E]; rewrite E.
  { rewrite E. auto. }
  destruct (no_session (app w)) eqn:Hns.
  - (* no session, or a finished game: the handle is dropped *)
    destruct (run_poll_effect_idle w Hns Ht) as (t' & Ht' & ->).
    match goal with |- context [commit (commit ?x)] => set (w1 := x) end.
    destruct (commit_cases w1) as [E1 | E1]; rewrite E1.
    { rewrite E1. auto. }
    destruct (run_poll_effect_idle w1 Hns Ht') as (t'' & Ht'' & ->).
    split; [| split].
    + apply commit_at_rest. reflexivity.
    + exact Ht''.
    + reflexivity.
  - destruct (truthy (pollInterval (app w))) eqn:Hp.
    + (* a handle is stored: nothing is created *)
      rewrite (run_poll_effect_keep w Hns Hp).
      match goal with |- context [commit (commit ?x)] => set (w1 := x) end.
      assert (E1 : commit w1 = w1) by (apply commit_at_rest; reflexivity).
      rewrite !E1.
      split; [reflexivity |].
      split; [apply run_cleanup_nil, Ht | reflexivity].
    + (* an interval is created, stored, and cleared by the next render *)
      rewrite (run_poll_effect_start w Hns Hp). cbv zeta.
      pose proof (run_cleanup_nil (poll_cleanup w) _ Ht) as Ht1.
      set (t1 := run_cleanup (poll_cleanup w) (timers w)) in *.
      match goal with |- context [commit (commit ?x)] => set (w1 := x) end.
      assert (E1 : commit w1 = run_poll_effect w1).
      { unfold commit, w1. simpl.
        rewrite (same_falsy_handle _ _ Hp), andb_false_r. reflexivity. }
      rewrite E1.
      rewrite (run_poll_effect_keep w1 Hns eq_refl).
      split; [| split].
      * apply commit_at_rest. reflexivity.
      * simpl. rewrite Ht1, Pos.eqb_refl. reflexivity.
      * reflexivity.
Qed.

Lemma handle_event_timers e w : timers (handle_event e w) = timers w.
Proof.
  destruct e as [r c | | h | i o]; simpl; try reflexivity.
  - destruct (callback_of h (active (timers w))); reflexivity.
  - destruct (nth_error (pending w) i); reflexivity.
Qed.

(** No interval is ever running once the renders that follow an event are
    done, and two renders are always enough. *)
Lemma no_timer_survives w :
  reachable w -> active (timers w) = [] /\ commit w = w.
Proof.
  induction 1 as [| e w Hw [IHt IHc]].
  - split; reflexivity.
  - unfold step.
    assert (Ht : active (timers (handle_event e w)) = [])
      by (rewrite handle_event_timers; exact IHt).
    destruct (render_rests _ Ht) as (Hc & Ht' & _). split; assumption.
Qed.

Lemma reachable_run es : reachable (run es).
Proof.
  unfold run. generalize mount, reach_mount.
  induction es as [| e es IH]; intros w Hw; simpl; [exact Hw |].
  apply IH. constructor. exact Hw.
Qed.

(** A timer callback can therefore never fire between two events. *)
Lemma tick_is_idle h w : reachable w -> step (Tick h) w = w.
Proof.
  intros Hw. destruct (no_timer_survives w Hw) as [Ht Hc].
  unfold step, handle_event. rewrite Ht. simpl.
  unfold render, settle. rewrite !Hc. reflexivity.
Qed.

Lemma is_str_eq v lit : is_str v lit = true <-> v = Str lit.
Proof.
  destruct v; simpl; split; intros H; try discriminate.
  - apply String.eqb_eq in H. subst. reflexivity.
  - injection H as ->. apply String.eqb_refl.
Qed.

Lemma truthy_message m : m <> "" -> truthy (Str m) = true.
Proof.
  intros H. simpl. apply negb_true_iff. apply String.eqb_neq. exact H.
Qed.

Lemma truthy_or_default reason : truthy (or_else reason (Str "Illegal move")) = true.
Proof. unfold or_else. destruct (truthy reason) eqn:E; [exact E | reflexivity]. Qed.

(** On a failed request the stored message does not depend on the state. *)
Lemma resume_failed_uniform o :
  failed o = true ->
  exists mf mc mm,
    (mf <> "" /\ mc <> "" /\ mm <> "")
    /\ forall s, fetchGameState_resume o s = caught mf s
              /\ startNewGame_resume o s = caught mc s
              /\ handleCellClick_resume o s = caught mm s.
Proof.
  intros H. destruct o as [m | res]; simpl in H.
  - exists (message_or m "Could not fetch game state"),
           (message_or m "Could not start a new game"),
           (message_or m "Could not submit move").
    split; [repeat split; apply message_or_nonempty; discriminate |].
    intros s. repeat split.
  - destruct (ok res) eqn:Hok; simpl in H.
    + destruct (body res) as [data | m] eqn:Hb.
      * exists (type_error_message data "board"), (type_error_message data "id"),
               (type_error_message data "valid").
        split; [repeat split; discriminate |].
        intros s. unfold_handler. simpl. rewrite Hok, Hb.
        rewrite !(get_nullish _ _ H). repeat split.
      * exists (message_or m "Could not fetch game state"),
               (message_or m "Could not start a new game"),
               (message_or m "Could not submit move").
        split; [repeat split; apply message_or_nonempty; discriminate |].
        intros s. unfold_handler. simpl. rewrite Hok, Hb. repeat split.
    + exists "Failed to fetch game state", "Failed to start new game",
             ("Move failed (" ++ decimal (http_status res) ++ ")").
      split; [repeat split; discriminate |].
      intros s. unfold_handler. simpl. rewrite Hok. repeat split.
Qed.

Lemma nth_error_mapi_from {A B} (f : nat -> A -> B) (l : list A) i n :
  nth_error (mapi_from i f l) n = option_map (f (i + n)) (nth_error l n).
Proof.
  revert i n. induction l as [| x l IH]; intros i [| n]; simpl; try reflexivity.
  - rewrite Nat.add_0_r. reflexivity.
  - rewrite IH. rewrite Nat.add_succ_r. reflexivity.
Qed.

Lemma nth_error_mapi {A B} (f : nat -> A -> B) (l : list A) n :
  nth_error (mapi f l) n = option_map (f n) (nth_error l n).
Proof. unfold mapi. apply nth_error_mapi_from. Qed.

Lemma nth_error_all_some {A} (l : list (option A)) xs n :
  all_some l = Some xs ->
  nth_error xs n = match nth_error l n with
                   | Some o => o
                   | None => None
                   end.
Proof.
  revert xs n. induction l as [| [x |] l IH]; simpl; intros xs n H.
  - injection H as <-. destruct n; reflexivity.
  - destruct (all_some l) as [ys |] eqn:E; [| discriminate].
    injection H as <-. destruct n; simpl; [reflexivity |]. apply IH. reflexivity.
  - discriminate.
Qed.

(** The button found at a position of a rendered board is the one computed
    from the cell at that position. *)
Lemma button_at_Board b d rows r c :
  Board b d = Some rows ->
  button_at rows r c = option_map (cell_button d r c) (cell_at b r c).
Proof.
  unfold Board, button_at, cell_at.
  destruct b as [ | | | | | rs |]; try discriminate. intros H.
  rewrite (nth_error_all_some _ _ r H), nth_error_mapi.
  destruct (nth_error rs r) as [row |]; simpl; [| reflexivity].
  destruct row; simpl; try reflexivity.
  apply nth_error_mapi.
Qed.
(** * The render *)

Lemma forallb_buttons d r cells j :
  forallb (fun btn => renderable (btn_content btn)) (mapi_from j (cell_button d r) cells)
  = forallb renderable cells.
Proof.
  revert j. induction cells as [| cell cells IH]; intros j; simpl; [reflexivity |].
  rewrite IH. reflexivity.
Qed.

Lemma Board_renders_rows d rows i :
  Board_renders (all_some (mapi_from i (Board_row d) rows))
  = forallb (fun row => match row with
                        | Arr cells => forallb renderable cells
                        | _ => false
                        end) rows.
Proof.
  revert i. induction rows as [| row rows IH]; intros i; [reflexivity |].
  simpl mapi_from. simpl forallb. specialize (IH (S i)).
  destruct row as [ | | | | | cells |]; try reflexivity.
  simpl all_some. unfold mapi at 1.
  destruct (all_some (mapi_from (S i) (Board_row d) rows)) as [xs |].
  - simpl in *. rewrite forallb_buttons, IH. reflexivity.
  - simpl in *. rewrite <- IH. apply eq_sym, andb_false_r.
Qed.

(** Whether the board renders does not depend on its [disabled] prop. *)
Lemma Board_renders_board_ok b d : Board_renders (Board b d) = board_ok b.
Proof.
  destruct b; try reflexivity. unfold Board, mapi. apply Board_renders_rows.
Qed.

Lemma App_render_eq s :
  App_render s = if App_renders s then Some (App_view s) else None.
Proof.
  unfold App_render, App_renders. cbn [App_view view_indicator view_error
    view_board view_moves]. rewrite Board_renders_board_ok. reflexivity.
Qed.

Lemma App_renders_ext s s' :
  session s' = session s -> error s' = error s -> App_renders s' = App_renders s.
Proof.
  unfold session, App_renders. intros H He.
  injection H as _ -> -> -> -> ->. rewrite He. reflexivity.
Qed.

(** Dispatching a request (which raises [loading] and at most empties the
    error) does not break the render. *)
Lemma App_renders_cleared s s' :
  session s' = session s -> error s' = Str "" ->
  App_renders s = true -> App_renders s' = true.
Proof.
  unfold session, App_renders. intros H He.
  injection H as _ -> -> -> -> ->. rewrite He.
  intros Hr. apply andb_true_iff in Hr as [Hr Hm].
  apply andb_true_iff in Hr as [Hr Hb]. apply andb_true_iff in Hr as [Hi _].
  rewrite Hi, Hb, Hm. reflexivity.
Qed.

(** * Guards of the handlers and of the buttons *)

Lemma setLoading_true_id s : loading s = true -> fst (setLoading true s) = s.
Proof. destruct s; simpl; intros ->; reflexivity. Qed.

Lemma handleCellClick_begin_guard r c s :
  handleCellClick_begin r c s =
    if is_str (status s) "ongoing" && truthy (gameId s)
    then (fst (setError (Str "") (fst (setLoading true s))),
          Some (PostMove (gameId s) r c))
    else (s, None).
Proof.
  unfold handleCellClick_begin.
  destruct (is_str (status s) "ongoing"), (truthy (gameId s)); reflexivity.
Qed.

(** A click reaches [handleCellClick] through the button of a rendered
    cell. *)
Lemma click_cell_eq r c s :
  click_cell r c s =
    if App_renders s then
      match cell_at (board s) r c with
      | Some cell =>
          if cell_disabled s cell then (s, None) else handleCellClick_begin r c s
      | None => (s, None)
      end
    else (s, None).
Proof.
  unfold click_cell. rewrite App_render_eq.
  destruct (App_renders s) eqn:Hr; [| reflexivity].
  cbn [App_view view_board].
  destruct (Board (board s) (board_disabled s)) as [rows |] eqn:EB.
  - rewrite (button_at_Board _ _ _ r c EB).
    destruct (cell_at (board s) r c); reflexivity.
  - unfold App_renders in Hr. apply andb_true_iff in Hr as [Hr _].
    apply andb_true_iff in Hr as [_ Hb].
    rewrite <- (Board_renders_board_ok _ (board_disabled s)), EB in Hb.
    discriminate.
Qed.

Lemma click_new_game_eq s :
  click_new_game s =
    if App_renders s && negb (loading s) then startNewGame_begin s else (s, None).
Proof.
  unfold click_new_game. rewrite App_render_eq.
  destruct (App_renders s); [| reflexivity].
  cbn [App_view view_new_game_disabled]. destruct (loading s); reflexivity.
Qed.

Lemma click_cell_disabled r c s :
  board_disabled s = true -> click_cell r c s = (s, None).
Proof.
  intros H. rewrite click_cell_eq. unfold cell_disabled. rewrite H.
  destruct (App_renders s); [| reflexivity].
  destruct (cell_at (board s) r c); reflexivity.
Qed.

Lemma fetch_payload_cases o s :
  match fetch_payload o with
  | Some data => fetchGameState_resume o s = fetched data s
  | None => session (fetchGameState_resume o s) = session s
  end.
Proof.
  unfold fetch_payload. destruct (failed o) eqn:Hf.
  - destruct (fetchGameState_resume_failed o s Hf) as (m & _ & ->). reflexivity.
  - destruct (failed_false_inv o Hf) as (st & data & -> & Hok & Hn).
    rewrite (fetchGameState_resume_ok st data s Hok Hn).
    destruct (truthy (field data "board")); reflexivity.
Qed.

Lemma create_payload_cases o s :
  match create_payload o with
  | Some data => startNewGame_resume o s = created data s
  | None => session (startNewGame_resume o s) = session s
  end.
Proof.
  unfold create_payload. destruct (failed o) eqn:Hf.
  - destruct (startNewGame_resume_failed o s Hf) as (m & _ & ->). reflexivity.
  - destruct (failed_false_inv o Hf) as (st & data & -> & Hok & Hn).
    apply startNewGame_resume_ok; assumption.
Qed.

Lemma dispatch_none w : dispatch w (app w, None) = w.
Proof. destruct w; reflexivity. Qed.


(** * The mounted component: what events and renders do *)

Lemma same_eq : forall a b, same a b = true -> a = b.
Proof.
  fix IH 1. intros a b. destruct a as [ | | x | x | x | xs | xs];
    destruct b as [ | | y | y | y | ys | ys]; simpl; try discriminate;
    intros H; try reflexivity.
  - apply Bool.eqb_prop in H. subst. reflexivity.
  - apply Z.eqb_eq in H. subst. reflexivity.
  - apply String.eqb_eq in H. subst. reflexivity.
  - f_equal. revert ys H.
    induction xs as [| x xs IHxs]; intros [| y ys] H; try discriminate;
      [reflexivity |].
    apply andb_true_iff in H as [H1 H2].
    f_equal; [apply IH, H1 | apply IHxs, H2].
  - f_equal. revert ys H.
    induction xs as [| [k x] xs IHxs]; intros [| [k' y] ys] H; try discriminate;
      [reflexivity |].
    apply andb_true_iff in H as [H1 H2]. apply andb_true_iff in H1 as [Hk H1].
    apply String.eqb_eq in Hk. subst k'.
    f_equal; [f_equal; apply IH, H1 | apply IHxs, H2].
Qed.

Lemma same_deps_eq d d' : same_deps d d' = true -> d = d'.
Proof.
  destruct d as [[g st] p], d' as [[g' st'] p']. simpl. intros H.
  apply andb_true_iff in H as [H Hp]. apply andb_true_iff in H as [Hg Hs].
  apply same_eq in Hg, Hs, Hp. subst. reflexivity.
Qed.

Lemma next_handle_clearInterval h t : next_handle (clearInterval h t) = next_handle t.
Proof. destruct h as [ | | | [ | q | q] | | |]; reflexivity. Qed.

Lemma next_handle_run_cleanup c t : next_handle (run_cleanup c t) = next_handle t.
Proof.
  destruct c as [| h | p]; simpl; try reflexivity.
  - destruct (truthy p); [apply next_handle_clearInterval | reflexivity].
Qed.

Lemma only_poll_changed_set p s : only_poll_changed s (fst (setPollInterval p s)).
Proof. repeat split. Qed.

Lemma no_session_session s s' : session s' = session s -> no_session s' = no_session s.
Proof.
  unfold session, no_session. intros H. injection H as -> _ _ -> _ _. reflexivity.
Qed.

Lemma commit_outcome w : (at_rest w /\ commit w = w) \/ commit w = run_poll_effect w.
Proof.
  unfold commit, at_rest. destruct (poll_deps w) as [d |]; [| now right].
  destruct (same_deps d (deps_of (app w))) eqn:E; [| now right].
  left. apply same_deps_eq in E. subst d. auto.
Qed.

Lemma poll_effect_idle_timers s t :
  no_session s = true ->
  exists t', poll_effect s t = (fst (setPollInterval Null s), t', NoCleanup)
    /\ next_handle t' = next_handle t
    /\ (active t = [] -> active t' = []).
Proof.
  unfold poll_effect, no_session. intros ->.
  destruct (truthy (pollInterval s)); eexists; split; try reflexivity; auto.
  split; [apply next_handle_clearInterval | apply clearInterval_nil].
Qed.

(** The world after the renders that follow an event. *)
Lemma render_outcome w :
  let w' := render w in
  commit w' = w'
  /\ pending w' = pending w
  /\ only_poll_changed (app w) (app w')
  /\ (active (timers w) = [] -> active (timers w') = [])
  /\ ((at_rest w /\ w' = w)
      \/ (at_rest w'
          /\ ((no_session (app w) = true
               /\ pollInterval (app w') = Null
               /\ next_handle (timers w') = next_handle (timers w))
              \/ (no_session (app w) = false
                  /\ truthy (pollInterval (app w)) = true
                  /\ pollInterval (app w') = pollInterval (app w)
                  /\ next_handle (timers w') = next_handle (timers w))
              \/ (no_session (app w) = false
                  /\ truthy (pollInterval (app w)) = false
                  /\ pollInterval (app w') = Num (Zpos (next_handle (timers w)))
                  /\ next_handle (timers w')
                     = Pos.succ (next_handle (timers w)))))).
Proof.
  cbv zeta. unfold render, settle.
  destruct (commit_outcome w) as [[Hr E] | E]; rewrite E.
  { rewrite !E. split; [reflexivity |]. split; [reflexivity |].
    split; [repeat split |]. split; [auto |]. left. auto. }
  destruct (no_session (app w)) eqn:Hns.
  - (* no session, or a finished game: the handle is dropped *)
    unfold run_poll_effect.
    destruct (poll_effect_idle_timers (app w)
                (run_cleanup (poll_cleanup w) (timers w)) Hns)
      as (t' & -> & Hn' & Ht').
    rewrite next_handle_run_cleanup in Hn'.
    match goal with |- context [commit (commit ?x)] => set (w1 := x) end.
    assert (Ht1 : active (timers w) = [] -> active (timers w1) = [])
      by (intros H; apply Ht', run_cleanup_nil, H).
    destruct (commit_outcome w1) as [[Hr1 E1] | E1]; rewrite E1.
    { rewrite !E1. split; [reflexivity |]. split; [reflexivity |].
      split; [repeat split |]. split; [exact Ht1 |].
      right. split; [exact Hr1 |]. left. auto. }
    unfold run_poll_effect.
    destruct (poll_effect_idle_timers (app w1)
                (run_cleanup (poll_cleanup w1) (timers w1)) Hns)
      as (t'' & -> & Hn'' & Ht'').
    split; [apply commit_at_rest; reflexivity |].
    split; [reflexivity |]. split; [repeat split |].
    split; [intros H; apply Ht''; apply (Ht1 H) |].
    right. split; [reflexivity |]. left.
    split; [reflexivity |]. split; [reflexivity |].
    simpl. rewrite Hn''. exact Hn'.
  - destruct (truthy (pollInterval (app w))) eqn:Hp.
    + (* a handle is stored: nothing is created *)
      rewrite (run_poll_effect_keep w Hns Hp).
      match goal with |- context [commit (commit ?x)] => set (w1 := x) end.
      assert (E1 : commit w1 = w1) by (apply commit_at_rest; reflexivity).
      rewrite !E1. split; [reflexivity |]. split; [reflexivity |].
      split; [repeat split |]. split; [apply run_cleanup_nil |].
      right. split; [reflexivity |]. right. left.
      split; [reflexivity |]. split; [reflexivity |]. split; [reflexivity |].
      apply next_handle_run_cleanup.
    + (* an interval is created, stored, and cleared by the next render *)
      rewrite (run_poll_effect_start w Hns Hp). cbv zeta.
      pose proof (next_handle_run_cleanup (poll_cleanup w) (timers w)) as Hn1.
      pose proof (run_cleanup_nil (poll_cleanup w) (timers w)) as Ht1.
      set (t1 := run_cleanup (poll_cleanup w) (timers w)) in *.
      match goal with |- context [commit (commit ?x)] => set (w1 := x) end.
      assert (E1 : commit w1 = run_poll_effect w1).
      { unfold commit, w1. simpl.
        rewrite (same_falsy_handle _ _ Hp), andb_false_r. reflexivity. }
      rewrite E1.
      rewrite (run_poll_effect_keep w1 Hns eq_refl).
      split; [apply commit_at_rest; reflexivity |].
      split; [reflexivity |]. split; [repeat split |].
      split; [intros H; simpl; rewrite (Ht1 H), Pos.eqb_refl; reflexivity |].
      right. split; [reflexivity |]. right. right.
      split; [reflexivity |]. split; [reflexivity |]. simpl.
      rewrite Hn1. split; reflexivity.
Qed.

Lemma resume_settles req o s :
  loading (resume req o s) = false /\ pollInterval (resume req o s) = pollInterval s.
Proof.
  destruct (failed o) eqn:Hf.
  - destruct (resume_failed_uniform o Hf) as (mf & mc & mm & _ & E).
    destruct (E s) as (E1 & E2 & E3).
    destruct req; simpl; rewrite ?E1, ?E2, ?E3; split; reflexivity.
  - destruct (failed_false_inv o Hf) as (st & data & -> & Hok & Hn).
    destruct req; simpl;
      rewrite ?(fetchGameState_resume_ok st data s Hok Hn),
              ?(startNewGame_resume_ok st data s Hok Hn),
              ?(handleCellClick_resume_ok st data s Hok Hn);
      try destruct (truthy (field data "board"));
      try destruct (truthy (field data "valid") && truthy (field data "state"));
      split; reflexivity.
Qed.

Lemma click_cell_dispatch r c s :
  click_cell r c s = (s, None)
  \/ click_cell r c s = (fst (setError (Str "") (fst (setLoading true s))),
                         Some (PostMove (gameId s) r c)).
Proof.
  rewrite click_cell_eq. destruct (App_renders s); [| now left].
  destruct (cell_at (board s) r c) as [cell |]; [| now left].
  destruct (cell_disabled s cell); [now left |].
  rewrite handleCellClick_begin_guard.
  destruct (is_str (status s) "ongoing" && truthy (gameId s)); auto.
Qed.

(** An event leaves timers and effect memory alone, keeps [pollInterval],
    and keeps at most one request in flight. *)
Lemma handle_event_outcome e w :
  active (timers w) = [] -> single_flight w ->
  timers (handle_event e w) = timers w
  /\ poll_deps (handle_event e w) = poll_deps w
  /\ pollInterval (app (handle_event e w)) = pollInterval (app w)
  /\ single_flight (handle_event e w).
Proof.
  intros Ht Hf. destruct e as [r c | | h | i o]; simpl.
  - (* a click on a cell *)
    destruct Hf as [[Hp Hl] | (req & Hp & Hq & Hl)].
    + destruct (click_cell_dispatch r c (app w)) as [-> | ->].
      * rewrite dispatch_none. repeat split; auto. left; auto.
      * repeat split; auto. right. exists (PostMove (gameId (app w)) r c).
        simpl. rewrite Hp. auto.
    + rewrite click_cell_disabled
        by (unfold board_disabled; rewrite Hl; apply orb_true_r).
      rewrite dispatch_none. repeat split; auto. right. exists req. auto.
  - (* a click on New Game *)
    rewrite click_new_game_eq.
    destruct Hf as [[Hp Hl] | (req & Hp & Hq & Hl)]; rewrite Hl.
    + destruct (App_renders (app w)); simpl.
      * repeat split; auto. right. exists PostGame. simpl. rewrite Hp. auto.
      * rewrite dispatch_none. repeat split; auto. left; auto.
    + rewrite andb_false_r, dispatch_none. repeat split; auto.
      right. exists req. auto.
  - (* a timer callback *)
    rewrite Ht. simpl. repeat split; auto.
  - (* a request settles *)
    destruct Hf as [[Hp Hl] | (req & Hp & Hq & Hl)]; rewrite Hp.
    + destruct i; simpl; repeat split; auto; left; auto.
    + destruct i as [| i]; simpl.
      * destruct (resume_settles req o (app w)) as [Hl' Hp'].
        repeat split; auto. left. auto.
      * destruct i; simpl; repeat split; auto; right; exists req; auto.
Qed.

(** What holds of the component whenever it is at rest. *)
Lemma reachable_invariant w :
  reachable w ->
  active (timers w) = [] /\ at_rest w /\ handle_tracks_session w /\ single_flight w.
Proof.
  induction 1 as [| e w Hw (Ht & Hr & Hh & Hf)].
  - split; [reflexivity |]. split; [reflexivity |]. split.
    + left. split; reflexivity.
    + right. exists PostGame. repeat split.
  - unfold step.
    destruct (handle_event_outcome e w Ht Hf) as (Et & Ed & Ep & Hf0).
    set (w0 := handle_event e w) in *.
    assert (Ht0 : active (timers w0) = []) by (rewrite Et; exact Ht).
    destruct (render_outcome w0) as (_ & Hpend & (Hs & Hl & _) & Htim & Hcase).
    split; [apply Htim, Ht0 |].
    assert (Hf' : single_flight (render w0)).
    { unfold single_flight. rewrite Hpend, Hl. exact Hf0. }
    destruct Hcase as [[Hr0 ->] | [Hr' Hcase]].
    + (* the dependencies did not change *)
      split; [exact Hr0 |]. split; [| exact Hf0].
      unfold at_rest in Hr, Hr0. rewrite Ed, Hr in Hr0.
      injection Hr0 as Hg Hst _.
      assert (Hns : no_session (app w0) = no_session (app w))
        by (unfold no_session; rewrite <- Hg, <- Hst; reflexivity).
      unfold handle_tracks_session. rewrite Hns, Ep, Et. exact Hh.
    + split; [exact Hr' |]. split; [| exact Hf'].
      unfold handle_tracks_session. rewrite (no_session_session _ _ Hs).
      destruct Hcase as [(Hns & Hp & _) | [(Hns & Hp & Hp' & Hn) | (Hns & Hp & Hp' & Hn)]].
      * left. auto.
      * right. split; [exact Hns |].
        rewrite Hp', Hn, Ep, Et. rewrite Ep in Hp.
        destruct Hh as [[_ Hnull] | (_ & h & Hh & Hlt)].
        -- rewrite Hnull in Hp. discriminate.
        -- exists h. auto.
      * right. split; [exact Hns |].
        exists (next_handle (timers w0)). rewrite Hp', Hn.
        split; [reflexivity | apply Pos.lt_succ_diag_r].
Qed.

Lemma settle_fixed k w : commit w = w -> settle k w = w.
Proof.
  intros H. induction k as [| k IH]; simpl; [reflexivity |].
  rewrite H. exact IH.
Qed.

Lemma settle_after_render k w : settle (2 + k) w = render w.
Proof.
  change (settle (2 + k) w) with (settle k (render w)).
  apply settle_fixed. apply render_outcome.
Qed.

(** One render from a world without a running interval. *)
Lemma commit_one_interval w :
  active (timers w) = [] ->
  List.length (active (timers (commit w))) <= 1 /\ active (unmount (commit w)) = [].
Proof.
  intros Ht. unfold unmount.
  destruct (commit_outcome w) as [[_ E] | E]; rewrite E.
  { rewrite Ht. split; [simpl; lia | apply run_cleanup_nil, Ht]. }
  destruct (no_session (app w)) eqn:Hns.
  - destruct (run_poll_effect_idle w Hns Ht) as (t' & Ht' & ->). simpl.
    rewrite Ht'. split; [simpl; lia | reflexivity].
  - destruct (truthy (pollInterval (app w))) eqn:Hp.
    + rewrite (run_poll_effect_keep w Hns Hp).
      pose proof (run_cleanup_nil (poll_cleanup w) _ Ht) as Ht1.
      cbn [timers poll_cleanup]. rewrite Ht1.
      split; [simpl; lia | apply run_cleanup_nil, Ht1].
    + rewrite (run_poll_effect_start w Hns Hp). cbv zeta.
      pose proof (run_cleanup_nil (poll_cleanup w) _ Ht) as Ht1.
      cbn [timers poll_cleanup run_cleanup setInterval snd active clearInterval].
      rewrite Ht1. simpl. rewrite Pos.eqb_refl. split; [lia | reflexivity].
Qed.

Lemma click_sends_move_iff_helper r c s :
  snd (click_cell r c s) = None \/ cell_at (board s) r c = Some (Str "").
Proof.
  rewrite click_cell_eq. destruct (App_renders s); [| now left].
  unfold cell_disabled.
  destruct (cell_at (board s) r c) as [cell |]; [| now left].
  destruct (board_disabled s); simpl; [now left |].
  destruct (is_str cell "") eqn:Hc; simpl; [| now left].
  apply is_str_eq in Hc. subst. now right.
Qed.


(** When a click sends a move, the view rendered and the game was ongoing. *)
Lemma click_cell_sends r c s req :
  snd (click_cell r c s) = Some req ->
  App_renders s = true /\ is_str (status s) "ongoing" = true
  /\ click_cell r c s = (fst (setError (Str "") (fst (setLoading true s))),
                         Some (PostMove (gameId s) r c)).
Proof.
  rewrite click_cell_eq. destruct (App_renders s); [| discriminate].
  destruct (cell_at (board s) r c) as [cell |]; [| discriminate].
  destruct (cell_disabled s cell); [discriminate |].
  rewrite handleCellClick_begin_guard.
  destruct (is_str (status s) "ongoing"); [| discriminate].
  destruct (truthy (gameId s)); [| discriminate]. auto.
Qed.

Lemma handle_event_in_flight e w :
  active (timers w) = [] -> single_flight w -> in_flight_ok w ->
  in_flight_ok (handle_event e w).
Proof.
  intros Ht Hf Hi. destruct e as [r c | | h | i o]; simpl.
  - (* a click on a cell *)
    destruct (snd (click_cell r c (app w))) as [req |] eqn:E.
    + destruct (click_cell_sends _ _ _ _ E) as (Hr & Hs & Ec).
      assert (Hp : pending w = []).
      { destruct Hf as [[Hp _] | (q & _ & _ & Hl)]; [exact Hp |].
        rewrite click_cell_disabled in E
          by (unfold board_disabled; rewrite Hl; apply orb_true_r).
        discriminate. }
      rewrite Ec. intros q. unfold dispatch. cbn [pending app fst snd].
      rewrite Hp. intros [<- | []]. split; [| exact Hs].
      apply (App_renders_cleared (app w)); auto.
    + destruct (click_cell_dispatch r c (app w)) as [Ec | Ec];
        [| rewrite Ec in E; discriminate].
      rewrite Ec, dispatch_none. exact Hi.
  - (* a click on New Game *)
    rewrite click_new_game_eq.
    destruct (App_renders (app w) && negb (loading (app w))) eqn:E.
    + apply andb_true_iff in E as [Hr Hl]. apply negb_true_iff in Hl.
      assert (Hp : pending w = []).
      { destruct Hf as [[Hp _] | (q & _ & _ & Hl')]; [exact Hp | congruence]. }
      intros q. unfold dispatch. cbn [pending app fst snd startNewGame_begin].
      rewrite Hp. intros [<- | []]. split; [| exact I].
      apply (App_renders_cleared (app w)); auto.
    + rewrite dispatch_none. exact Hi.
  - (* a timer callback *)
    rewrite Ht. exact Hi.
  - (* a request settles *)
    destruct Hf as [[Hp _] | (req & Hp & _)]; rewrite Hp.
    + destruct i; simpl; exact Hi.
    + destruct i as [| i]; simpl.
      * intros q [].
      * destruct i; simpl; exact Hi.
Qed.

(** Every request in flight left a state that renders, and a move is in
    flight only while the game is ongoing. *)
Lemma reachable_in_flight w : reachable w -> in_flight_ok w.
Proof.
  induction 1 as [| e w Hw IH].
  - intros req [<- | []]. split; [reflexivity | exact I].
  - destruct (reachable_invariant w Hw) as (Ht & _ & _ & Hf).
    pose proof (handle_event_in_flight e w Ht Hf IH) as H0.
    unfold step.
    destruct (render_outcome (handle_event e w)) as (_ & Hp & (Hs & _ & He) & _).
    intros req Hin. rewrite Hp in Hin. destruct (H0 req Hin) as [Hr Hq].
    split.
    + rewrite (App_renders_ext _ _ Hs He). exact Hr.
    + destruct req; auto.
      unfold session in Hs. injection Hs as _ _ _ Hst _ _. rewrite Hst. exact Hq.
Qed.

Lemma render_at_rest w : commit w = w -> render w = w.
Proof. intros H. unfold render. apply settle_fixed, H. Qed.

Lemma reachable_commit w : reachable w -> commit w = w.
Proof.
  intros H. destruct (reachable_invariant w H) as (_ & Hr & _).
  apply commit_at_rest, Hr.
Qed.

(** Once a render has thrown, nothing happens any more: no button is left
    to click, no interval runs and no request is in flight. *)
Lemma crash_is_final w e :
  reachable w -> App_render (app w) = None -> step e w = w.
Proof.
  intros Hw Hc. rewrite App_render_eq in Hc.
  destruct (App_renders (app w)) eqn:Hr; [discriminate |].
  destruct (reachable_invariant w Hw) as (Ht & _ & _ & Hf).
  assert (Hp : pending w = []).
  { destruct Hf as [[Hp _] | (req & Hp & _)]; [exact Hp |].
    destruct (reachable_in_flight w Hw req) as [Hr' _];
      [rewrite Hp; left; reflexivity | congruence]. }
  assert (E : handle_event e w = w).
  { destruct e as [r c | | h | i o]; simpl.
    - rewrite click_cell_eq, Hr. apply dispatch_none.
    - rewrite click_new_game_eq, Hr. apply dispatch_none.
    - rewrite Ht. reflexivity.
    - rewrite Hp. destruct i; reflexivity. }
  unfold step. rewrite E. apply render_at_rest, reachable_commit, Hw.
Qed.

Lemma reachable_run_from w es : reachable w -> reachable (run_from w es).
Proof.
  revert w. induction es as [| e es IH]; intros w Hw; simpl; [exact Hw |].
  apply IH. constructor. exact Hw.
Qed.

(** One event on a finished game. *)
Lemma terminal_step w e :
  reachable w -> is_str (status (app w)) "ongoing" = false ->
  session (app (step e w)) = session (app w)
  \/ exists o data,
       e = Settled 0 o /\ pending w = [PostGame]
       /\ create_payload o = Some data
       /\ session (app (step e w)) = session (created data (app w)).
Proof.
  intros Hw Hterm.
  destruct (reachable_invariant w Hw) as (Ht & _ & _ & Hf).
  unfold step.
  destruct (render_outcome (handle_event e w)) as (_ & _ & (Hs & _) & _).
  rewrite Hs. clear Hs.
  destruct e as [r c | | h | i o]; simpl.
  - left. rewrite click_cell_disabled
      by (unfold board_disabled; rewrite Hterm; reflexivity).
    reflexivity.
  - left. rewrite click_new_game_eq.
    destruct (App_renders (app w) && negb (loading (app w))); reflexivity.
  - left. rewrite Ht. reflexivity.
  - destruct Hf as [[Hp _] | (req & Hp & Hq & _)]; rewrite Hp.
    + left. destruct i; reflexivity.
    + destruct i as [| i]; simpl; [| left; destruct i; reflexivity].
      destruct req as [g | | g r c]; simpl.
      * discriminate.
      * pose proof (create_payload_cases o (app w)) as E.
        destruct (create_payload o) as [data |] eqn:Ep.
        -- right. exists o, data. rewrite E. auto.
        -- left. exact E.
      * destruct (reachable_in_flight w Hw (PostMove g r c)) as [_ Hon];
          [rewrite Hp; left; reflexivity |].
        rewrite Hon in Hterm. discriminate.
Qed.

(** * The claims *)

(** ** C1: what happens while [loading] is true *)

(** C1: in every state the mounted component can reach at most one create,
    fetch or move request is outstanding; and whenever [loading] is true, a
    user click on a cell and a tick of the poll timer both leave the
    component exactly as it was: no request is dispatched and no field of the
    state changes.  (The click is stopped by the disabled button and no
    interval is ever running, see C4; the handlers themselves do not test
    [loading].) *)
Theorem C1_no_request_while_loading (w : World) (H : reachable w) :
  List.length (pending w) <= 1
  /\ (loading (app w) = true ->
      (forall r c, step (ClickCell r c) w = w)
      /\ (forall h, step (Tick h) w = w)).
Proof.
  destruct (reachable_invariant w H) as (_ & _ & _ & Hf).
  split.
  - destruct Hf as [[-> _] | (req & -> & _)]; simpl; lia.
  - intros Hl. split.
    + intros r c. unfold step. simpl.
      rewrite click_cell_disabled
        by (unfold board_disabled; rewrite Hl; apply orb_true_r).
      rewrite dispatch_none. apply render_at_rest, reachable_commit, H.
    + intros h. apply tick_is_idle, H.
Qed.

(** The theorem while the move on the centre cell is in flight. *)
Lemma C1_loading_witness :
  loading (app move_in_flight) = true
  /\ List.length (pending move_in_flight) <= 1
  /\ step (ClickCell 0 0) move_in_flight = move_in_flight
  /\ step (Tick 1) move_in_flight = move_in_flight.
Proof.
  destruct (C1_no_request_while_loading move_in_flight
              (reachable_run [Settled 0 (http_ok created_g1); ClickCell 1 1]))
    as [H1 H2].
  assert (Hl : loading (app move_in_flight) = true) by (vm_compute; reflexivity).
  destruct (H2 Hl) as [H3 H4].
  split; [exact Hl |]. split; [exact H1 |]. split; [apply H3 | apply H4].
Defined.

(** ** C2: terminal states *)

Lemma terminal_trace es :
  forall w, reachable w -> is_str (status (app w)) "ongoing" = false ->
  session (app (run_from w es)) = session (app w)
  \/ exists es1 o data es2,
       es = (es1 ++ Settled 0 o :: es2)%list
       /\ session (app (run_from w es1)) = session (app w)
       /\ pending (run_from w es1) = [PostGame]
       /\ create_payload o = Some data
       /\ session (app (run_from w (es1 ++ [Settled 0 o])%list))
          = session (created data (app (run_from w es1))).
Proof.
  induction es as [| e es IH]; intros w Hw Hterm; [left; reflexivity |].
  destruct (terminal_step w e Hw Hterm) as [Hs | (o & data & -> & Hp & Hc & Hs)].
  - assert (Hterm' : is_str (status (app (step e w))) "ongoing" = false).
    { unfold session in Hs. injection Hs as _ _ _ -> _ _. exact Hterm. }
    destruct (IH (step e w) (reach_step e w Hw) Hterm')
      as [E | (es1 & o & data & es2 & -> & E1 & Hp & Hc & E2)].
    + left. simpl. rewrite E. exact Hs.
    + right. exists (e :: es1), o, data, es2. simpl.
      split; [reflexivity |]. split; [rewrite E1; exact Hs |]. auto.
  - right. exists [], o, data, es. simpl. auto.
Qed.

(** C2: from a reachable state whose status is WIN or DRAW, whatever events
    follow (clicks on cells, clicks on New Game, timer ticks, responses
    arriving, in any order), board, currentPlayer, winner, status and
    moveCount (and the session id) stay as they are, unless a response to a
    New Game request arrives that did not fail, and then they are replaced
    together by the created session. *)
Theorem C2_terminal_state_is_sticky (w : World) (es : list Event)
    (H : reachable w)
    (Hend : status (app w) = Str "win" \/ status (app w) = Str "draw") :
  session (app (run_from w es)) = session (app w)
  \/ exists es1 o data es2,
       es = (es1 ++ Settled 0 o :: es2)%list
       /\ session (app (run_from w es1)) = session (app w)
       /\ pending (run_from w es1) = [PostGame]
       /\ create_payload o = Some data
       /\ session (app (run_from w (es1 ++ [Settled 0 o])%list))
          = session (created data (app (run_from w es1))).
Proof.
  apply terminal_trace; [exact H |].
  destruct Hend as [-> | ->]; reflexivity.
Qed.

(** The theorem at the won game, followed by a click on a free cell and a
    tick. *)
Lemma C2_terminal_witness :
  status (app game_won) = Str "win"
  /\ (session (app (run_from game_won [ClickCell 2 2; Tick 1]))
        = session (app game_won)
      \/ exists es1 o data es2,
           [ClickCell 2 2; Tick 1] = (es1 ++ Settled 0 o :: es2)%list
           /\ session (app (run_from game_won es1)) = session (app game_won)
           /\ pending (run_from game_won es1) = [PostGame]
           /\ create_payload o = Some data
           /\ session (app (run_from game_won (es1 ++ [Settled 0 o])%list))
              = session (created data (app (run_from game_won es1)))).
Proof.
  assert (Hs : status (app game_won) = Str "win") by (vm_compute; reflexivity).
  split; [exact Hs |].
  apply C2_terminal_state_is_sticky;
    [unfold game_won; apply reachable_run | left; exact Hs].
Defined.

(** ** C3: the results of a move submission *)

(** C3, as stated, fails on a response that is no MoveResult: with the move
    on the centre in flight, the answer [200 {valid:true, state:{}}] is
    taken as accepted; board, currentPlayer, status and moveCount become
    [undefined] and no error is set. *)
Lemma C3_shapeless_state_is_stored :
  reachable move_in_flight
  /\ pending move_in_flight = [PostMove (Str "g1") 1 1]
  /\ shapeless_move_stored
     = step (Settled 0 (http_ok shapeless_move)) move_in_flight
  /\ error (app shapeless_move_stored) = Str ""
  /\ board (app shapeless_move_stored) = Undefined
  /\ currentPlayer (app shapeless_move_stored) = Undefined
  /\ status (app shapeless_move_stored) = Undefined
  /\ moves (app shapeless_move_stored) = Undefined
  /\ session (app shapeless_move_stored) <> session (app move_in_flight).
Proof.
  split; [apply reachable_run |].
  vm_compute. repeat split; discriminate.
Qed.

(** C3 (amended): a move submission changes no session field when it is
    dispatched, and when its request settles
    - if [fetch] rejected, the status is outside 200-299, or the body is not
      JSON or is [null], a non-empty error message is stored and every
      session field (id, board, currentPlayer, status, winner, moveCount) is
      as before;
    - on any other body for which [data.valid && data.state] is falsy, the
      error is [data.error || 'Illegal move'] and every session field is as
      before;
    - on any other body for which [data.valid && data.state] is truthy,
      board, currentPlayer, status, winner and moveCount are all read from
      that one [data.state], whatever its shape (a missing field is
      [undefined], a falsy winner is [null]), the id is kept and the error is
      empty. *)
Theorem C3_move_submission_outcomes (o : Outcome) (s : AppState) :
  let s' := handleCellClick_resume o s in
  (forall r c, session (fst (handleCellClick_begin r c s)) = session s)
  /\ loading s' = false
  /\ (if failed o then
        session s' = session s /\ exists m, m <> "" /\ error s' = Str m
      else
        match o with
        | Resolved {| body := Json data |} =>
            if truthy (field data "valid") && truthy (field data "state") then
              board s' = field (field data "state") "board"
              /\ currentPlayer s' = field (field data "state") "current_player"
              /\ status s' = field (field data "state") "status"
              /\ winner s' = or_else (field (field data "state") "winner") Null
              /\ moves s' = field (field data "state") "moves"
              /\ gameId s' = gameId s
              /\ error s' = Str ""
            else
              session s' = session s
              /\ error s' = or_else (field data "error") (Str "Illegal move")
        | _ => False
        end).
Proof.
  cbv zeta. split; [| split].
  - intros r c. rewrite handleCellClick_begin_guard.
    destruct (is_str (status s) "ongoing" && truthy (gameId s)); reflexivity.
  - destruct (failed o) eqn:Hf.
    + destruct (handleCellClick_resume_failed o s Hf) as (m & _ & ->). reflexivity.
    + destruct (failed_false_inv o Hf) as (st & data & -> & Hok & Hn).
      rewrite (handleCellClick_resume_ok st data s Hok Hn).
      destruct (truthy (field data "valid") && truthy (field data "state"));
        reflexivity.
  - destruct (failed o) eqn:Hf.
    + destruct (handleCellClick_resume_failed o s Hf) as (m & Hm & ->).
      split; [reflexivity | exists m; split; [exact Hm | reflexivity]].
    + destruct (failed_false_inv o Hf) as (st & data & -> & Hok & Hn).
      rewrite (handleCellClick_resume_ok st data s Hok Hn).
      destruct (truthy (field data "valid") && truthy (field data "state")).
      * repeat split.
      * split; reflexivity.
Qed.

(** The scenario of the spec: the server answers
    [{valid:false, error:"Illegal move"}]; the board is unchanged and the
    error reads "Illegal move". *)
Example illegal_move_scenario :
  session (app move_rejected) = session (app session_created)
  /\ error (app move_rejected) = Str "Illegal move"
  /\ loading (app move_rejected) = false.
Proof. vm_compute. repeat split. Qed.

(** ** C4: the poll timer *)

(** C4 fails on the code.  After the session "g1" is created and ongoing,
    the effect creates interval 1 and stores its handle; the render caused by
    storing it runs the cleanup of that effect run, which clears interval 1,
    and the re-run creates nothing because a handle is stored.  The component
    comes to rest with an ongoing session, a stored handle and no running
    interval. *)
Theorem C4_poll_timer_cleared_once_stored :
  let w0 := handle_event (Settled 0 (http_ok created_g1)) mount in
  (* first render after the response: the interval is created *)
  active (timers (commit w0)) = [(1%positive, Str "g1")]
  /\ poll_cleanup (commit w0) = ClearCreated 1
  /\ pollInterval (app (commit w0)) = Num 1
  (* second render: its cleanup clears it, nothing replaces it *)
  /\ active (timers (commit (commit w0))) = []
  /\ commit (commit (commit w0)) = commit (commit w0)
  (* the state at rest *)
  /\ session_created = commit (commit w0)
  /\ gameId (app session_created) = Str "g1"
  /\ status (app session_created) = Str "ongoing"
  /\ pollInterval (app session_created) = Num 1
  /\ active (timers session_created) = [].
Proof. vm_compute. repeat split. Qed.

(** ** C5: when the error is cleared *)


(** ** C6: responses that are not a GameState *)

(** C6, as stated, fails: a 200 response to [POST /game] whose body is the
    JSON object [{}] is not of GameState shape, yet [startNewGame] reports no
    error and stores it: id, board, currentPlayer and status become
    [undefined]. *)
Lemma C6_shapeless_body_is_stored :
  let s := app mount in
  let s' := startNewGame_resume (http_ok (Obj [])) s in
  pending mount = [PostGame]
  /\ error s' = Str ""
  /\ gameId s' = Undefined /\ board s' = Undefined
  /\ currentPlayer s' = Undefined /\ status s' = Undefined
  /\ session s' <> session s.
Proof. vm_compute. repeat split; discriminate. Qed.

(** C6 (amended): when [fetch] rejects, or the HTTP status is outside
    200-299, or the body is not JSON, or the body is [null], each of the three
    operations stores a non-empty error message, lowers [loading] and changes
    nothing else: no session field is updated. *)
Theorem C6_failed_request_only_sets_error (o : Outcome) (s : AppState)
    (H : failed o = true) :
  (exists m, m <> "" /\ startNewGame_resume o s = caught m s)
  /\ (exists m, m <> "" /\ fetchGameState_resume o s = caught m s)
  /\ (exists m, m <> "" /\ handleCellClick_resume o s = caught m s)
  /\ (forall m, session (caught m s) = session s
                /\ error (caught m s) = Str m
                /\ loading (caught m s) = false
                /\ pollInterval (caught m s) = pollInterval s).
Proof.
  split; [| split; [| split]].
  - apply startNewGame_resume_failed, H.
  - apply fetchGameState_resume_failed, H.
  - apply handleCellClick_resume_failed, H.
  - intros m. repeat split.
Qed.

(** The theorem at a 500 answer to the first create request. *)
Lemma C6_failed_witness :
  failed (Resolved {| http_status := 500; body := Json created_g1 |}) = true
  /\ exists m, m <> ""
       /\ startNewGame_resume
            (Resolved {| http_status := 500; body := Json created_g1 |}) (app mount)
          = caught m (app mount).
Proof.
  split; [reflexivity |].
  exact (proj1 (C6_failed_request_only_sets_error
                  (Resolved {| http_status := 500; body := Json created_g1 |})
                  (app mount) eq_refl)).
Defined.

(** ** C7: the create-then-move scenario *)

(** C7: after creation answers [created_g1] and the move on (1,1) answers
    [moved_center], the centre cell is "X", it is O's turn and one move is
    counted. *)
Theorem C7_create_then_centre_move :
  pending move_in_flight = [PostMove (Str "g1") 1 1]
  /\ cell_at (board (app centre_played)) 1 1 = Some (Str "X")
  /\ at_index (at_index (board (app centre_played)) 1) 1 = Str "X"
  /\ currentPlayer (app centre_played) = Str "O"
  /\ moves (app centre_played) = Num 1
  /\ gameId (app centre_played) = Str "g1"
  /\ status (app centre_played) = Str "ongoing"
  /\ error (app centre_played) = Str ""
  /\ loading (app centre_played) = false
  /\ pending centre_played = [].
Proof. vm_compute. repeat split. Qed.

(** ** C8: a fetched body without a board *)

(** C8, as stated, fails on the JSON body [null]: it has no [board], but
    reading [data.board] throws, and the [catch] stores the TypeError's
    message over the empty error. *)
Lemma C8_null_body_sets_error :
  let s := app session_created in
  let s' := fetchGameState_resume (http_ok Null) s in
  error s = Str ""
  /\ error s' = Str (type_error_message Null "board")
  /\ error s' <> error s.
Proof. vm_compute. repeat split; discriminate. Qed.

(** C8 (amended): for a 2xx response to a fetch whose JSON body is not
    [null] and has no truthy [board], the continuation changes nothing but
    [loading], which it lowers: id, board, currentPlayer, status, winner,
    moveCount and the error are as before, and no error is reported. *)
Theorem C8_fetch_without_board_is_silent (st : N) (data : Value) (s : AppState)
    (Hok : ok {| http_status := st; body := Json data |} = true)
    (Hdata : nullish data = false)
    (Hboard : truthy (field data "board") = false) :
  let s' := fetchGameState_resume
              (Resolved {| http_status := st; body := Json data |}) s in
  s' = finished s
  /\ session s' = session s
  /\ error s' = error s
  /\ pollInterval s' = pollInterval s
  /\ loading s' = false.
Proof.
  cbv zeta. rewrite (fetchGameState_resume_ok st data s Hok Hdata), Hboard.
  repeat split.
Qed.

(** The theorem at the body [{id:"g1"}], with "Illegal move" on display. *)
Lemma C8_silent_witness :
  fetchGameState_resume (http_ok (Obj [("id", Str "g1")])) (app move_rejected)
  = finished (app move_rejected).
Proof.
  exact (proj1 (C8_fetch_without_board_is_silent 200 (Obj [("id", Str "g1")])
                  (app move_rejected) eq_refl eq_refl eq_refl)).
Defined.

(** ** C9: the initial state *)

(** C9: the initial state has an empty 3x3 board, X to play, status ongoing,
    no winner, no move, no error and no session id; there, and while the
    first create request is in flight, every move submission is a no-op. *)
Theorem C9_initial_state_and_no_session :
  board initial_state = grid [[""; ""; ""]; [""; ""; ""]; [""; ""; ""]]
  /\ currentPlayer initial_state = Str "X"
  /\ status initial_state = Str "ongoing"
  /\ winner initial_state = Null
  /\ moves initial_state = Num 0
  /\ error initial_state = Str ""
  /\ gameId initial_state = Null
  /\ (forall r c, handleCellClick_begin r c initial_state = (initial_state, None))
  /\ session (app mount) = session initial_state
  /\ pending mount = [PostGame]
  /\ (forall r c, handleCellClick_begin r c (app mount) = (app mount, None))
  /\ (forall r c, step (ClickCell r c) mount = mount).
Proof.
  repeat split.
  intros r c. unfold step, handle_event.
  rewrite click_cell_disabled by reflexivity.
  rewrite dispatch_none. reflexivity.
Qed.

(** ** C10: the default rejection message *)

(** C10, as stated, fails on an error that is not a string: with the move on
    the centre in flight, the answer [200 {valid:false, error:42}] carries no
    non-empty error string, and the error stored is 42, not "Illegal
    move". *)
Lemma C10_numeric_error_is_stored :
  reachable move_in_flight
  /\ pending move_in_flight = [PostMove (Str "g1") 1 1]
  /\ numeric_error_stored
     = step (Settled 0 (http_ok numeric_error)) move_in_flight
  /\ error (app numeric_error_stored) = Num 42
  /\ error (app numeric_error_stored) <> Str "Illegal move".
Proof.
  split; [apply reachable_run |].
  vm_compute. repeat split; discriminate.
Qed.

(** C10 (amended): for a 2xx response to a move whose body is JSON other
    than [null] and for which [data.valid && data.state] is falsy, the error
    stored is [data.error || 'Illegal move']: the default "Illegal move"
    whenever [data.error] is falsy (absent, [null], [false], 0 or the empty
    string), and [data.error] itself, of whatever type, whenever it is
    truthy. *)
Theorem C10_falsy_error_gets_default (st : N) (data : Value) (s : AppState)
    (Hok : ok {| http_status := st; body := Json data |} = true)
    (Hdata : nullish data = false)
    (Hrej : truthy (field data "valid") && truthy (field data "state") = false) :
  error (handleCellClick_resume
           (Resolved {| http_status := st; body := Json data |}) s)
  = if truthy (field data "error") then field data "error"
    else Str "Illegal move".
Proof.
  rewrite (handleCellClick_resume_ok st data s Hok Hdata), Hrej. reflexivity.
Qed.

(** The theorem at the body [{valid:false}]. *)
Lemma C10_default_witness :
  error (handleCellClick_resume (http_ok (Obj [("valid", Bool false)]))
           (app move_in_flight))
  = Str "Illegal move".
Proof.
  exact (C10_falsy_error_gets_default 200 (Obj [("valid", Bool false)])
           (app move_in_flight) eq_refl eq_refl eq_refl).
Defined.

(** * Further properties of the handlers *)

(** The [loading] flag is raised exactly when a request is dispatched (an
    early return leaves the state untouched) and is lowered by every path of
    every continuation. *)
Theorem loading_raised_on_dispatch_lowered_on_settle (s : AppState) :
  (forall arg,
     match snd (fetchGameState_begin arg s) with
     | Some _ => loading (fst (fetchGameState_begin arg s)) = true
     | None => fst (fetchGameState_begin arg s) = s
     end)
  /\ loading (fst (startNewGame_begin s)) = true
  /\ (forall r c,
        match snd (handleCellClick_begin r c s) with
        | Some _ => loading (fst (handleCellClick_begin r c s)) = true
        | None => fst (handleCellClick_begin r c s) = s
        end)
  /\ (forall o, loading (fetchGameState_resume o s) = false
             /\ loading (startNewGame_resume o s) = false
             /\ loading (handleCellClick_resume o s) = false).
Proof.
  split; [| split; [| split]].
  - intros arg. unfold fetchGameState_begin. cbv zeta.
    destruct (truthy (fetch_gid arg s)); reflexivity.
  - reflexivity.
  - intros r c. rewrite handleCellClick_begin_guard.
    destruct (is_str (status s) "ongoing" && truthy (gameId s)); reflexivity.
  - intros o. destruct (failed o) eqn:Hf.
    + destruct (resume_failed_uniform o Hf) as (mf & mc & mm & _ & E).
      destruct (E s) as (-> & -> & ->). repeat split.
    + destruct (failed_false_inv o Hf) as (st & data & -> & Hok & Hn).
      rewrite (fetchGameState_resume_ok st data s Hok Hn),
              (startNewGame_resume_ok st data s Hok Hn),
              (handleCellClick_resume_ok st data s Hok Hn).
      destruct (truthy (field data "board"));
        destruct (truthy (field data "valid") && truthy (field data "state"));
        repeat split.
Qed.

(** Applying the same settled request twice is the same as applying it once:
    the setters store absolute values. *)
Theorem continuations_are_idempotent (o : Outcome) (s : AppState) :
  fetchGameState_resume o (fetchGameState_resume o s) = fetchGameState_resume o s
  /\ startNewGame_resume o (startNewGame_resume o s) = startNewGame_resume o s
  /\ handleCellClick_resume o (handleCellClick_resume o s) = handleCellClick_resume o s.
Proof.
  destruct (failed o) eqn:Hf.
  - destruct (resume_failed_uniform o Hf) as (mf & mc & mm & _ & E).
    destruct (E s) as (-> & -> & ->).
    destruct (E (caught mf s)) as (-> & _ & _).
    destruct (E (caught mc s)) as (_ & -> & _).
    destruct (E (caught mm s)) as (_ & _ & ->).
    repeat split.
  - destruct (failed_false_inv o Hf) as (st & data & -> & Hok & Hn).
    rewrite !(fetchGameState_resume_ok st data _ Hok Hn),
            !(startNewGame_resume_ok st data _ Hok Hn),
            !(handleCellClick_resume_ok st data _ Hok Hn).
    destruct (truthy (field data "board"));
      destruct (truthy (field data "valid") && truthy (field data "state"));
      repeat split.
Qed.

(** No handler touches [pollInterval], dispatching a request (a fetch, a
    create or a move) changes no session field, and a move submission never
    changes the session id, whatever the server answers. *)
Theorem handlers_keep_pollInterval_and_move_keeps_id (o : Outcome) (s : AppState) :
  pollInterval (fetchGameState_resume o s) = pollInterval s
  /\ pollInterval (startNewGame_resume o s) = pollInterval s
  /\ pollInterval (handleCellClick_resume o s) = pollInterval s
  /\ gameId (handleCellClick_resume o s) = gameId s
  /\ (forall arg, pollInterval (fst (fetchGameState_begin arg s)) = pollInterval s
               /\ session (fst (fetchGameState_begin arg s)) = session s)
  /\ (pollInterval (fst (startNewGame_begin s)) = pollInterval s
      /\ session (fst (startNewGame_begin s)) = session s)
  /\ (forall r c, pollInterval (fst (handleCellClick_begin r c s)) = pollInterval s
               /\ session (fst (handleCellClick_begin r c s)) = session s).
Proof.
  assert (R : pollInterval (fetchGameState_resume o s) = pollInterval s
              /\ pollInterval (startNewGame_resume o s) = pollInterval s
              /\ pollInterval (handleCellClick_resume o s) = pollInterval s
              /\ gameId (handleCellClick_resume o s) = gameId s).
  { destruct (failed o) eqn:Hf.
    - destruct (resume_failed_uniform o Hf) as (mf & mc & mm & _ & E).
      destruct (E s) as (-> & -> & ->). repeat split.
    - destruct (failed_false_inv o Hf) as (st & data & -> & Hok & Hn).
      rewrite (fetchGameState_resume_ok st data s Hok Hn),
              (startNewGame_resume_ok st data s Hok Hn),
              (handleCellClick_resume_ok st data s Hok Hn).
      destruct (truthy (field data "board"));
        destruct (truthy (field data "valid") && truthy (field data "state"));
        repeat split. }
  destruct R as (R1 & R2 & R3 & R4).
  repeat split; try assumption; try reflexivity.
  all: try (unfold fetchGameState_begin; cbv zeta;
            destruct (truthy (fetch_gid arg s)); reflexivity).
  all: rewrite handleCellClick_begin_guard;
    destruct (is_str (status s) "ongoing" && truthy (gameId s)); reflexivity.
Qed.

(** The body of a response whose status is outside 200-299 is never read:
    the stored message is fixed for create and fetch, and names only the
    status code for a move. *)
Theorem non_2xx_body_is_ignored (res : Response) (s : AppState)
    (H : ok res = false) :
  fetchGameState_resume (Resolved res) s = caught "Failed to fetch game state" s
  /\ startNewGame_resume (Resolved res) s = caught "Failed to start new game" s
  /\ handleCellClick_resume (Resolved res) s
     = caught ("Move failed (" ++ decimal (http_status res) ++ ")") s.
Proof.
  unfold_handler. simpl. rewrite H. repeat split.
Qed.

(** The theorem at a 404 whose body explains why. *)
Lemma non_2xx_witness :
  handleCellClick_resume
    (Resolved {| http_status := 404;
                 body := Json (Obj [("detail", Str "Game not found")]) |})
    (app move_in_flight)
  = caught "Move failed (404)" (app move_in_flight).
Proof.
  exact (proj2 (proj2 (non_2xx_body_is_ignored
           {| http_status := 404;
              body := Json (Obj [("detail", Str "Game not found")]) |}
           (app move_in_flight) eq_refl))).
Defined.

(** * The presentation *)


(** [Board] renders exactly one button per cell of the board it is given:
    the button at [(r, c)] carries the cell's content, calls
    [onCellClick(r, c)] with its own position, is disabled when the board is
    disabled or the cell is taken, and shows the "not-allowed" cursor exactly
    when it is disabled. *)
Theorem Board_renders_one_button_per_cell (b : Value) (d : bool)
    (rows : list (list CellButton)) (H : Board b d = Some rows) :
  forall r c,
    match button_at rows r c, cell_at b r c with
    | Some btn, Some cell =>
        btn_content btn = cell
        /\ btn_target btn = (r, c)
        /\ btn_disabled btn = d || negb (is_str cell "")
        /\ (btn_cursor btn = "not-allowed" <-> btn_disabled btn = true)
    | None, None => True
    | _, _ => False
    end.
Proof.
  intros r c. rewrite (button_at_Board b d rows r c H).
  destruct (cell_at b r c) as [cell |]; simpl; [| exact I].
  repeat split.
  - destruct d, (is_str cell ""); simpl; intros; try reflexivity; discriminate.
  - destruct d, (is_str cell ""); simpl; intros; try reflexivity; discriminate.
Qed.

(** The theorem at the empty board, enabled. *)
Lemma Board_witness :
  match button_at (buttons_of initial_state) 2 0,
        cell_at empty_board 2 0 with
  | Some btn, Some cell =>
      btn_content btn = cell
      /\ btn_target btn = (2, 0)
      /\ btn_disabled btn = false || negb (is_str cell "")
      /\ (btn_cursor btn = "not-allowed" <-> btn_disabled btn = true)
  | None, None => True
  | _, _ => False
  end.
Proof.
  exact (Board_renders_one_button_per_cell empty_board false
           (buttons_of initial_state) eq_refl 2 0).
Defined.

(** A rendered cell can be clicked exactly when it is empty, the game is
    ongoing and no request is in flight. *)
Theorem cell_enabled_iff (s : AppState) (rows : list (list CellButton))
    (r c : nat) (btn : CellButton)
    (Hrows : view_board (App_view s) = Some rows)
    (Hbtn : button_at rows r c = Some btn) :
  btn_disabled btn = false
  <-> (cell_at (board s) r c = Some (Str "")
       /\ status s = Str "ongoing" /\ loading s = false).
Proof.
  simpl in Hrows. rewrite (button_at_Board _ _ _ r c Hrows) in Hbtn.
  destruct (cell_at (board s) r c) as [cell |]; [| discriminate].
  injection Hbtn as <-. simpl. unfold board_disabled.
  split.
  - intros H. apply orb_false_iff in H as [H1 H2].
    apply orb_false_iff in H1 as [H0 H1].
    apply negb_false_iff in H0, H2.
    apply is_str_eq in H0, H2. subst cell. auto.
  - intros (Hc & Hs & Hl). injection Hc as ->. rewrite Hs, Hl. reflexivity.
Qed.

(** The theorem at the centre cell of the fresh session. *)
Lemma cell_enabled_witness :
  btn_disabled (cell_button false 1 1 (Str "")) = false
  <-> (cell_at (board (app session_created)) 1 1 = Some (Str "")
       /\ status (app session_created) = Str "ongoing"
       /\ loading (app session_created) = false).
Proof.
  apply (cell_enabled_iff (app session_created) (buttons_of (app session_created))
           1 1 (cell_button false 1 1 (Str ""))); vm_compute; reflexivity.
Defined.

(** A user click sends a move exactly when the view renders, the clicked
    cell is empty, the game is ongoing, nothing is in flight and a session
    exists; the request then carries the session id and the clicked position.
    Otherwise nothing is sent and nothing changes. *)
Theorem click_sends_move_iff (r c : nat) (s : AppState) :
  (snd (click_cell r c s) = Some (PostMove (gameId s) r c)
   <-> (App_render s <> None
        /\ cell_at (board s) r c = Some (Str "")
        /\ status s = Str "ongoing" /\ loading s = false
        /\ truthy (gameId s) = true))
  /\ (snd (click_cell r c s) = None -> fst (click_cell r c s) = s)
  /\ (snd (click_cell r c s) = None
      \/ snd (click_cell r c s) = Some (PostMove (gameId s) r c)).
Proof.
  rewrite click_cell_eq, App_render_eq.
  destruct (App_renders s).
  2:{ simpl. repeat split; try discriminate; auto.
      intros (H & _). contradiction. }
  assert (Hv : Some (App_view s) <> None) by discriminate.
  unfold cell_disabled, board_disabled.
  destruct (cell_at (board s) r c) as [cell |].
  2:{ simpl. repeat split; try discriminate; auto.
      intros (_ & H & _). discriminate. }
  rewrite handleCellClick_begin_guard.
  destruct (is_str (status s) "ongoing") eqn:Hs; simpl.
  2:{ repeat split; try discriminate; auto.
      intros (_ & _ & H & _). rewrite H in Hs. discriminate. }
  apply is_str_eq in Hs.
  destruct (loading s) eqn:Hl; simpl.
  { repeat split; try discriminate; auto.
    intros (_ & _ & _ & H & _). discriminate. }
  destruct (is_str cell "") eqn:Hc; simpl.
  2:{ repeat split; try discriminate; auto.
      intros (_ & H & _). injection H as ->. discriminate. }
  apply is_str_eq in Hc. subst cell.
  destruct (truthy (gameId s)) eqn:Hg; simpl.
  - repeat split; auto. discriminate.
  - repeat split; try discriminate; auto.
    intros (_ & _ & _ & _ & H). discriminate.
Qed.

Lemma string_app_inv_head (a x y : string) : a ++ x = a ++ y -> x = y.
Proof.
  induction a as [| ch a IH]; simpl; intros H; [exact H |].
  injection H as H. apply IH, H.
Qed.

(** A decimal numeral holds no dash, so [`${r}-${c}`] can be read back. *)
Lemma numeral_dash_inj (d d' : Decimal.uint) (x y : string) :
  NilEmpty.string_of_uint d ++ "-" ++ x = NilEmpty.string_of_uint d' ++ "-" ++ y ->
  d = d' /\ x = y.
Proof.
  revert d'. induction d; destruct d'; simpl; intros H; try discriminate;
    injection H as H; try (destruct (IHd _ H) as [-> ->]); auto.
Qed.

Lemma decimal_nat_inj n m : decimal_nat n = decimal_nat m -> n = m.
Proof.
  unfold decimal_nat, decimal. intros H.
  assert (E : Some (N.to_uint (N.of_nat n)) = Some (N.to_uint (N.of_nat m))).
  { rewrite <- !NilEmpty.usu. rewrite H. reflexivity. }
  injection E as E. apply Unsigned.to_uint_inj in E. lia.
Qed.

Lemma key_inj r c r' c' :
  decimal_nat r ++ "-" ++ decimal_nat c = decimal_nat r' ++ "-" ++ decimal_nat c' ->
  r = r' /\ c = c'.
Proof.
  intros H. unfold decimal_nat at 1 3 in H. unfold decimal in H.
  destruct (numeral_dash_inj _ _ _ _ H) as [Hr Hc].
  apply Unsigned.to_uint_inj in Hr.
  split; [lia | apply decimal_nat_inj, Hc].
Qed.

(** Two buttons of a rendered board that carry the same React key are at
    the same position: keys are unique over the whole board. *)
Theorem Board_keys_are_unique (b : Value) (d : bool) (rows : list (list CellButton))
    (r c r' c' : nat) (btn btn' : CellButton)
    (H : Board b d = Some rows)
    (Hb : button_at rows r c = Some btn)
    (Hb' : button_at rows r' c' = Some btn')
    (Hk : btn_key btn = btn_key btn') :
  r = r' /\ c = c'.
Proof.
  rewrite (button_at_Board b d rows r c H) in Hb.
  rewrite (button_at_Board b d rows r' c' H) in Hb'.
  destruct (cell_at b r c); [| discriminate].
  destruct (cell_at b r' c'); [| discriminate].
  injection Hb as <-. injection Hb' as <-. simpl in Hk.
  apply key_inj, Hk.
Qed.

(** The theorem at a button compared with itself. *)
Lemma Board_keys_witness : 2 = 2 /\ 1 = 1.
Proof.
  apply (Board_keys_are_unique empty_board false (buttons_of initial_state)
           2 1 2 1 (cell_button false 2 1 (Str "")) (cell_button false 2 1 (Str "")));
    vm_compute; reflexivity.
Defined.

(** A board that is stored without being an array makes [Board] throw at
    the next render: [startNewGame] and an accepted move store whatever
    [board] they are given, and the [if (data.board)] of [fetchGameState]
    lets every truthy value through. *)
Theorem stored_non_array_board_breaks_render (o : Outcome) (s : AppState) :
  match create_payload o with
  | Some data =>
      is_array (field data "board") = false ->
      view_board (App_view (startNewGame_resume o s)) = None
  | None => board (startNewGame_resume o s) = board s
  end
  /\ match move_result o with
     | Accepted state =>
         is_array (field state "board") = false ->
         view_board (App_view (handleCellClick_resume o s)) = None
     | _ => board (handleCellClick_resume o s) = board s
     end
  /\ match fetch_payload o with
     | Some data =>
         is_array (field data "board") = false ->
         view_board (App_view (fetchGameState_resume o s)) = None
     | None => board (fetchGameState_resume o s) = board s
     end.
Proof.
  assert (N : forall v dis, is_array v = false -> Board v dis = None)
    by (intros [] dis Hv; try reflexivity; discriminate).
  split; [| split].
  - pose proof (create_payload_cases o s) as E.
    destruct (create_payload o) as [data |].
    + rewrite E. intros Hb. apply N, Hb.
    + injection E as _ E _ _ _ _. exact E.
  - unfold move_result. destruct (failed o) eqn:Hf.
    + destruct (resume_failed_uniform o Hf) as (mf & mc & mm & _ & E).
      destruct (E s) as (_ & _ & ->). reflexivity.
    + destruct (failed_false_inv o Hf) as (st & data & -> & Hok & Hn).
      rewrite (handleCellClick_resume_ok st data s Hok Hn).
      destruct (truthy (field data "valid") && truthy (field data "state")).
      * intros Hb. apply N, Hb.
      * reflexivity.
  - pose proof (fetch_payload_cases o s) as E.
    destruct (fetch_payload o) as [data |].
    + rewrite E. intros Hb. apply N, Hb.
    + injection E as _ E _ _ _ _. exact E.
Qed.

(** After an accepted move that ends the game and leaves a state that
    renders, the indicator announces the result, every rendered cell is
    disabled whether empty or not, a click on a cell does nothing and the
    polling effect sees no ongoing session. *)
Theorem finished_game_is_announced_and_locked (st : N) (data : Value)
    (s : AppState) (v : View)
    (Hok : ok {| http_status := st; body := Json data |} = true)
    (Hdata : nullish data = false)
    (Hacc : truthy (field data "valid") && truthy (field data "state") = true)
    (Hend : is_str (field (field data "state") "status") "win"
            || is_str (field (field data "state") "status") "draw" = true)
    (Hr : App_render (handleCellClick_resume
                        (Resolved {| http_status := st; body := Json data |}) s)
          = Some v) :
  let state := field data "state" in
  let s' := handleCellClick_resume
              (Resolved {| http_status := st; body := Json data |}) s in
  view_indicator v
    = (if is_str (field state "status") "win"
       then ShowWinner (if is_str (or_else (field state "winner") Null) "X"
                        then PRIMARY_COLOR else ACCENT_COLOR)
                       (or_else (field state "winner") Null)
       else ShowDraw)
  /\ (forall rows r c btn,
        view_board v = Some rows ->
        button_at rows r c = Some btn -> btn_disabled btn = true)
  /\ (forall r c, click_cell r c s' = (s', None))
  /\ no_session s' = true.
Proof.
  cbv zeta. revert Hr.
  rewrite (handleCellClick_resume_ok st data s Hok Hdata), Hacc.
  set (state := field data "state") in *.
  rewrite App_render_eq. destruct (App_renders (moved state s)); [| discriminate].
  intros Hr. injection Hr as <-.
  assert (Hno : is_str (field state "status") "ongoing" = false).
  { apply orb_true_iff in Hend as [H | H]; apply is_str_eq in H; rewrite H;
      reflexivity. }
  assert (Hdis : board_disabled (moved state s) = true)
    by (unfold board_disabled; simpl; rewrite Hno; reflexivity).
  split; [| split; [| split]].
  - unfold App_view, PlayerIndicator. simpl.
    destruct (is_str (field state "status") "win") eqn:Hw; [reflexivity |].
    simpl in Hend. rewrite Hend. reflexivity.
  - intros rows r c btn Hrows Hbtn. simpl in Hrows.
    rewrite (button_at_Board _ _ _ r c Hrows) in Hbtn.
    destruct (cell_at (field state "board") r c); [| discriminate].
    injection Hbtn as <-. simpl. rewrite Hdis. reflexivity.
  - intros r c. apply click_cell_disabled, Hdis.
  - unfold no_session. simpl. rewrite Hno. apply orb_true_r.
Qed.

(** The theorem at the fifth move of the won game. *)
Lemma finished_game_witness :
  view_indicator (App_view (app game_won)) = ShowWinner PRIMARY_COLOR (Str "X").
Proof.
  refine (proj1 (finished_game_is_announced_and_locked 200
                   (move_json rows5 "O" "win" (Str "X") 5)
                   (app game_won) (App_view (app game_won)) _ _ _ _ _));
    vm_compute; reflexivity.
Defined.

(** Whenever the state left by a continuation renders: after a create
    attempt the error banner is hidden exactly when the attempt did not
    fail; after a move it is hidden exactly when the move was accepted (a
    rejected move shows its message); a fetch hides it when it stores a
    board, shows it when it fails and otherwise leaves it as it was. *)
Theorem error_banner_after_settle (o : Outcome) (s : AppState) :
  (forall v, App_render (startNewGame_resume o s) = Some v ->
     (view_error v = None <-> failed o = false))
  /\ (forall v, App_render (handleCellClick_resume o s) = Some v ->
        (view_error v = None <-> exists state, move_result o = Accepted state))
  /\ (forall v, App_render (fetchGameState_resume o s) = Some v ->
        if failed o
        then view_error v <> None
        else match fetch_payload o with
             | Some _ => view_error v = None
             | None => view_error v = view_error (App_view s)
             end).
Proof.
  assert (V : forall s' v, App_render s' = Some v -> v = App_view s').
  { intros s' v. rewrite App_render_eq. destruct (App_renders s');
      [intros H; injection H as <-; reflexivity | discriminate]. }
  unfold fetch_payload, move_result. destruct (failed o) eqn:Hf.
  - destruct (resume_failed_uniform o Hf) as (mf & mc & mm & (Hmf & Hmc & Hmm) & E).
    destruct (E s) as (-> & -> & ->).
    repeat split; intros; try (rewrite (V _ _ H)); simpl; unfold ErrorBanner;
      simpl error; try rewrite !truthy_message by assumption; simpl;
      try discriminate.
    + rewrite (V _ _ H) in H0. simpl in H0. unfold ErrorBanner in H0.
      simpl error in H0. rewrite truthy_message in H0 by assumption. discriminate.
    + rewrite (V _ _ H) in H0. simpl in H0. unfold ErrorBanner in H0.
      simpl error in H0. rewrite truthy_message in H0 by assumption. discriminate.
    + destruct H0 as (state & H0). discriminate.
  - destruct (failed_false_inv o Hf) as (st & data & -> & Hok & Hn).
    rewrite (fetchGameState_resume_ok st data s Hok Hn),
            (startNewGame_resume_ok st data s Hok Hn),
            (handleCellClick_resume_ok st data s Hok Hn).
    split; [| split].
    + intros v H. rewrite (V _ _ H). split; reflexivity.
    + intros v H. rewrite (V _ _ H).
      destruct (truthy (field data "valid") && truthy (field data "state")).
      * split; [intros _; eexists; reflexivity | reflexivity].
      * simpl. unfold ErrorBanner. simpl error. rewrite truthy_or_default. simpl.
        split; [discriminate | intros (state & H0); discriminate].
    + intros v H. rewrite (V _ _ H).
      destruct (truthy (field data "board")); reflexivity.
Qed.

(** The winner is normalised wherever a create or an accepted move stores
    it (never [undefined], [false], 0 or the empty string), the move count
    is defaulted to 0 by a create only, and a fetch stores both as read. *)
Theorem winner_and_moves_defaults (o : Outcome) (s : AppState) :
  match create_payload o with
  | Some data =>
      (winner (startNewGame_resume o s) = Null
       \/ truthy (winner (startNewGame_resume o s)) = true)
      /\ (moves (startNewGame_resume o s) = Num 0
          \/ truthy (moves (startNewGame_resume o s)) = true)
  | None => winner (startNewGame_resume o s) = winner s
            /\ moves (startNewGame_resume o s) = moves s
  end
  /\ match move_result o with
     | Accepted state =>
         (winner (handleCellClick_resume o s) = Null
          \/ truthy (winner (handleCellClick_resume o s)) = true)
         /\ moves (handleCellClick_resume o s) = field state "moves"
     | _ => winner (handleCellClick_resume o s) = winner s
            /\ moves (handleCellClick_resume o s) = moves s
     end
  /\ match fetch_payload o with
     | Some data =>
         winner (fetchGameState_resume o s) = field data "winner"
         /\ moves (fetchGameState_resume o s) = field data "moves"
     | None => winner (fetchGameState_resume o s) = winner s
               /\ moves (fetchGameState_resume o s) = moves s
     end.
Proof.
  assert (D : forall v d, or_else v d = d \/ truthy (or_else v d) = true).
  { intros v d. unfold or_else. destruct (truthy v) eqn:E; auto. }
  unfold create_payload, fetch_payload, move_result. destruct (failed o) eqn:Hf.
  - destruct (resume_failed_uniform o Hf) as (mf & mc & mm & _ & E).
    destruct (E s) as (-> & -> & ->). repeat split.
  - destruct (failed_false_inv o Hf) as (st & data & -> & Hok & Hn).
    rewrite (fetchGameState_resume_ok st data s Hok Hn),
            (startNewGame_resume_ok st data s Hok Hn),
            (handleCellClick_resume_ok st data s Hok Hn).
    split; [split; apply D |]. split.
    + destruct (truthy (field data "valid") && truthy (field data "state")).
      * split; [apply D | reflexivity].
      * split; reflexivity.
    + destruct (truthy (field data "board")); split; reflexivity.
Qed.

(** * The theme toggle *)

(** Whatever the theme was, a toggle leaves it "light" or "dark"; starting
    from [initial_theme], [n] toggles give "light" for even [n] and "dark"
    for odd [n]; and the button's label announces the theme the next toggle
    produces. *)
Theorem theme_toggle_alternates :
  (forall t, toggleTheme t = Str "light" \/ toggleTheme t = Str "dark")
  /\ (forall n, Nat.iter n toggleTheme initial_theme
                = if Nat.even n then Str "light" else Str "dark")
  /\ (forall t, toggleTheme (toggleTheme (toggleTheme t)) = toggleTheme t)
  /\ (forall t, exists name, toggleTheme t = Str name
                /\ theme_label t = "Switch to " ++ name ++ " mode").
Proof.
  split; [| split; [| split]].
  - intros t. unfold toggleTheme. destruct (is_str t "light"); auto.
  - induction n as [| n IH]; [reflexivity |].
    change (Nat.iter (S n) toggleTheme initial_theme)
      with (toggleTheme (Nat.iter n toggleTheme initial_theme)).
    rewrite IH, Nat.even_succ, <- Nat.negb_even.
    destruct (Nat.even n); reflexivity.
  - intros t. unfold toggleTheme. destruct (is_str t "light"); reflexivity.
  - intros t. unfold toggleTheme, theme_label.
    destruct (is_str t "light"); eexists; split; reflexivity.
Qed.

(** * The mounted component: invariants *)

(** Re-rendering always terminates: after two renders a further render runs
    no effect, from any state, stored handle and effect memory whatever; and
    what the renders change is [pollInterval] alone. *)
Theorem effect_settles_in_two_renders (w : World) :
  commit (render w) = render w
  /\ (forall k, settle (2 + k) w = render w)
  /\ pending (render w) = pending w
  /\ session (app (render w)) = session (app w)
  /\ loading (app (render w)) = loading (app w)
  /\ error (app (render w)) = error (app w).
Proof.
  destruct (render_outcome w) as (Hc & Hp & (Hs & Hl & He) & _).
  repeat split; auto. intros k. apply settle_after_render.
Qed.

(** Whenever the component is at rest no interval is running, so no timer
    callback ever runs and no [GET /game/{id}] is ever in flight:
    [fetchGameState] is never called. *)
Theorem no_interval_runs_and_no_fetch_is_sent (w : World) (H : reachable w) :
  active (timers w) = []
  /\ (forall h, step (Tick h) w = w)
  /\ (forall req, In req (pending w) -> is_fetch req = false).
Proof.
  destruct (reachable_invariant w H) as (Ht & _ & _ & Hf).
  split; [exact Ht |]. split; [intros h; apply tick_is_idle, H |].
  intros req Hin. destruct Hf as [[Hp _] | (r & Hp & Hq & _)]; rewrite Hp in Hin.
  - destruct Hin.
  - destruct Hin as [<- | []]. exact Hq.
Qed.

(** The theorem at the ongoing session "g1". *)
Lemma no_interval_witness : active (timers session_created) = [].
Proof.
  exact (proj1 (no_interval_runs_and_no_fetch_is_sent session_created
                  (reachable_run [Settled 0 (http_ok created_g1)]))).
Defined.

(** In the mounted component at most one request is in flight, and
    [loading] (hence the spinner) is up exactly while one is. *)
Theorem at_most_one_request_in_flight (w : World) (H : reachable w) :
  List.length (pending w) <= 1
  /\ (loading (app w) = true <-> pending w <> [])
  /\ (view_spinner (App_view (app w)) = false <-> pending w = []).
Proof.
  destruct (reachable_invariant w H) as (_ & _ & _ & Hf).
  destruct Hf as [[Hp Hl] | (r & Hp & _ & Hl)]; simpl; rewrite Hp, Hl.
  - split; [simpl; lia |]. split; split; intros; try reflexivity;
      try discriminate. congruence.
  - split; [simpl; lia |]. split; split; intros; try reflexivity;
      try discriminate.
Qed.

(** The theorem while the centre move is in flight. *)
Lemma one_request_witness : List.length (pending move_in_flight) <= 1.
Proof.
  exact (proj1 (at_most_one_request_in_flight move_in_flight
                  (reachable_run [Settled 0 (http_ok created_g1); ClickCell 1 1]))).
Defined.

(** At rest, the stored [pollInterval] tells whether a session is ongoing:
    it is [null] when there is no session or the game is over, and
    otherwise a handle that [setInterval] once returned. *)
Theorem stored_handle_tracks_session (w : World) (H : reachable w) :
  handle_tracks_session w.
Proof. apply reachable_invariant, H. Qed.

(** The theorem at the won game. *)
Lemma stored_handle_witness : handle_tracks_session game_won.
Proof.
  apply stored_handle_tracks_session. unfold game_won. apply reachable_run.
Defined.

(** Whenever the view is on screen and nothing is in flight, whatever the
    status or the error on display, a click on New Game dispatches
    [POST /game], raises [loading] and empties the error, leaving the session
    fields as they are until the answer arrives. *)
Theorem new_game_is_available_at_rest (w : World)
    (H : reachable w) (Hv : App_render (app w) <> None) (Hp : pending w = []) :
  let w' := step ClickNewGame w in
  pending w' = [PostGame]
  /\ loading (app w') = true
  /\ error (app w') = Str ""
  /\ session (app w') = session (app w).
Proof.
  cbv zeta. destruct (reachable_invariant w H) as (_ & _ & _ & Hf).
  assert (Hl : loading (app w) = false).
  { destruct Hf as [[_ Hl] | (r & Hp' & _)]; [exact Hl |].
    rewrite Hp in Hp'. discriminate. }
  assert (Hr : App_renders (app w) = true).
  { rewrite App_render_eq in Hv. destruct (App_renders (app w));
      [reflexivity | contradiction]. }
  unfold step.
  destruct (render_outcome (handle_event ClickNewGame w))
    as (_ & Hpend & (Hs & Hl' & He) & _).
  rewrite Hpend, Hs, Hl', He. simpl. rewrite click_new_game_eq, Hr, Hl.
  simpl. rewrite Hp. repeat split.
Qed.

(** The theorem after the rejected move, with "Illegal move" on display. *)
Lemma new_game_witness :
  pending (step ClickNewGame move_rejected) = [PostGame].
Proof.
  apply (new_game_is_available_at_rest move_rejected);
    [unfold move_rejected; apply reachable_run
    | vm_compute; discriminate
    | vm_compute; reflexivity].
Defined.

(** During the renders that follow an event at most one interval is ever
    running, and unmounting at any of them (running the cleanup of the last
    effect run) leaves none. *)
Theorem at_most_one_interval_and_unmount_clears (w : World) (e : Event) (k : nat)
    (H : reachable w) :
  List.length (active (timers (settle k (handle_event e w)))) <= 1
  /\ active (unmount (settle k (handle_event e w))) = [].
Proof.
  destruct (reachable_invariant w H) as (Ht & _ & _ & Hf).
  assert (Ht0 : active (timers (handle_event e w)) = [])
    by (rewrite handle_event_timers; exact Ht).
  destruct k as [| [| k]].
  - simpl. rewrite Ht0. split; [simpl; lia | apply run_cleanup_nil, Ht0].
  - simpl. apply commit_one_interval, Ht0.
  - change (S (S k)) with (2 + k). rewrite settle_after_render.
    destruct (render_outcome (handle_event e w)) as (_ & _ & _ & Htim & _).
    specialize (Htim Ht0). rewrite Htim.
    split; [simpl; lia | apply run_cleanup_nil, Htim].
Qed.

(** The theorem at the render that creates interval 1. *)
Lemma one_interval_witness :
  List.length (active (timers (settle 1 (handle_event (Settled 0 (http_ok created_g1))
                                                   mount)))) <= 1.
Proof.
  exact (proj1 (at_most_one_interval_and_unmount_clears mount
                  (Settled 0 (http_ok created_g1)) 1 reach_mount)).
Defined.

(** * Positions and the order of responses *)

(** A move is only ever sent for a position inside the board on display:
    the row exists, is an array, and holds an empty cell at the column. *)
Theorem move_position_is_within_board (r c : nat) (s : AppState)
    (rows : list Value)
    (Hb : board s = Arr rows)
    (Hd : snd (click_cell r c s) <> None) :
  r < List.length rows
  /\ exists cells, nth_error rows r = Some (Arr cells)
                   /\ c < List.length cells
                   /\ nth_error cells c = Some (Str "").
Proof.
  destruct (click_sends_move_iff_helper r c s) as [H | H]; [contradiction |].
  revert H. unfold cell_at. rewrite Hb. intros H.
  destruct (nth_error rows r) as [row |] eqn:Er; [| discriminate].
  destruct row as [ | | | | | cells |]; try discriminate.
  split; [apply nth_error_Some; congruence |].
  exists cells. split; [reflexivity |].
  split; [apply nth_error_Some; congruence | exact H].
Qed.

(** The theorem at the centre of the empty board of the fresh session. *)
Lemma move_position_witness : 1 < 3.
Proof.
  apply (move_position_is_within_board 1 1 (app session_created)
           [empty_row; empty_row; empty_row]);
    vm_compute; [reflexivity | discriminate].
Defined.

(** Responses are applied in the order they arrive and nothing of an
    earlier one survives a later one that stores a game: whatever request
    settled before, and however, a fetch or a create whose answer carries a
    board leaves exactly the state it would have left without it.  Id, board,
    currentPlayer and status are then read from that answer; winner and moves
    are stored as read by a fetch, and as [winner || null] and [moves || 0]
    by a create. *)
Theorem later_payload_replaces_earlier_result (req : Request) (o1 o2 : Outcome)
    (data : Value) (s : AppState)
    (H : fetch_payload o2 = Some data) :
  fetchGameState_resume o2 (resume req o1 s) = fetchGameState_resume o2 s
  /\ startNewGame_resume o2 (resume req o1 s) = startNewGame_resume o2 s
  /\ session (fetchGameState_resume o2 s)
     = (field data "id", field data "board", field data "current_player",
        field data "status", field data "winner", field data "moves")
  /\ session (startNewGame_resume o2 s)
     = (field data "id", field data "board", field data "current_player",
        field data "status", or_else (field data "winner") Null,
        or_else (field data "moves") (Num 0)).
Proof.
  destruct (resume_settles req o1 s) as [_ Hp].
  unfold fetch_payload in H. destruct (failed o2) eqn:Hf; [discriminate |].
  destruct (failed_false_inv o2 Hf) as (st & d & -> & Hok & Hn).
  destruct (truthy (field d "board")) eqn:Hb; [| discriminate].
  injection H as ->.
  rewrite !(fetchGameState_resume_ok st data _ Hok Hn),
          !(startNewGame_resume_ok st data _ Hok Hn), Hb.
  unfold fetched, created. rewrite Hp. repeat split.
Qed.

(** The theorem at the stale answer arriving after the winning move. *)
Lemma later_payload_witness :
  fetchGameState_resume (http_ok stale_g1)
    (resume (PostMove (Str "g1") 0 2)
            (http_ok (move_json rows5 "O" "win" (Str "X") 5))
            (app game_won))
  = fetchGameState_resume (http_ok stale_g1) (app game_won).
Proof.
  apply (later_payload_replaces_earlier_result
           (PostMove (Str "g1") 0 2)
           (http_ok (move_json rows5 "O" "win" (Str "X") 5))
           (http_ok stale_g1) stale_g1 (app game_won)).
  vm_compute. reflexivity.
Defined.
